(** * VoiceBuddy: the practice-session pipeline of [voicebuddy_app.py]

    A shallow embedding of the class [VoiceBuddyAI]: its attributes become
    the fields of a record, each method a function on that record, and the
    effects a method has outside the object (message boxes, threads started,
    callbacks handed to [root.after], console output, the two JSON files)
    are logged in the record as well.

    Conventions.
    - A Python [str] is a [string]; a character is a code point below 256.
    - [self.settings] is a dict from strings to the values [json.load] can
      produce ([pyval]); the values the user interface stores in it are
      strings, each coming from a [StringVar].
    - A Python [float] is a [spec_float] of the binary64 format.
    - An exception is a value of [exn]; a call that may raise returns a
      [result].
    - [random.choice] takes the random draw as an explicit argument. *)

From Stdlib Require Import String Ascii List ZArith QArith Lia Bool.
From Stdlib Require Import SpecFloat DecimalString.
From stdpp Require Import gmap strings.
Import ListNotations.

Local Open Scope string_scope.
Local Open Scope list_scope.

(** ** Exceptions and results *)

Inductive exn : Type :=
  | KeyError (key : string)
  | IndexError
  | AttributeError (msg : string)
  | TypeError (msg : string)
  | ZeroDivisionError
  | OverflowError
  | FileNotFoundError (path : string)
  | OSError (path : string)
  | JSONDecodeError (path : string)
  | RuntimeError (msg : string).

Inductive result (A : Type) : Type :=
  | Ok (a : A)
  | Raise (e : exn).

Arguments Ok {A} a.
Arguments Raise {A} e.

(** The error monad of [result], with stdpp's [x ← r; k] notation. *)
#[global] Instance result_ret : MRet result := fun A a => Ok a.

#[global] Instance result_bind : MBind result := fun A B k r =>
  match r with
  | Ok a => k a
  | Raise e => Raise e
  end.

(** [str(e)] as the f-strings of the source print it. *)
Definition exn_str (e : exn) : string :=
  match e with
  | KeyError k => "'" +:+ k +:+ "'"
  | IndexError => "Cannot choose from an empty sequence"
  | AttributeError m => m
  | TypeError m => m
  | ZeroDivisionError => "division by zero"
  | OverflowError => "integer division result too large for a float"
  | FileNotFoundError p => "No such file or directory: '" +:+ p +:+ "'"
  | OSError p => "Permission denied: '" +:+ p +:+ "'"
  | JSONDecodeError p => "Expecting value"
  | RuntimeError m => m
  end.

(** ** Python values *)

(** A value [json.load] returns for a key of a JSON object. A float, a list
    and a dict are given by the text [repr] prints for them: the code hashes
    and formats such values, and reads nothing else of them. *)
Inductive pyval : Type :=
  | PyStr (s : string)
  | PyNone
  | PyBool (b : bool)
  | PyInt (z : Z)
  | PyFloat (repr : string)
  | PyList (repr : string)
  | PyDict (repr : string).

(** ** The Python built-ins the source calls *)

Module Py.

(** [type(v).__name__] *)
Definition type_name (v : pyval) : string :=
  match v with
  | PyStr _ => "str"
  | PyNone => "NoneType"
  | PyBool _ => "bool"
  | PyInt _ => "int"
  | PyFloat _ => "float"
  | PyList _ => "list"
  | PyDict _ => "dict"
  end.

(** Whether [hash(v)] returns: lists and dicts are unhashable. *)
Definition hashable (v : pyval) : bool :=
  match v with
  | PyList _ | PyDict _ => false
  | _ => true
  end.

(** [str(v)], which is also what an f-string puts for [{v}]. *)
Definition str (v : pyval) : string :=
  match v with
  | PyStr s => s
  | PyNone => "None"
  | PyBool true => "True"
  | PyBool false => "False"
  | PyInt z => NilZero.string_of_int (Z.to_int z)
  | PyFloat repr => repr
  | PyList repr => repr
  | PyDict repr => repr
  end.

(** [v == s] for a string literal [s]: only an equal string is equal. *)
Definition eq_str (v : pyval) (s : string) : bool :=
  match v with
  | PyStr s' => String.eqb s' s
  | _ => false
  end.

(** [c.isspace()] for a code point below 256. *)
Definition isspace (c : ascii) : bool :=
  let n := nat_of_ascii c in
  (((9 <=? n) && (n <=? 13)) || ((28 <=? n) && (n <=? 32))
   || (n =? 133) || (n =? 160))%nat.

(** [c.lower()] for a code point below 256. *)
Definition lower_char (c : ascii) : ascii :=
  let n := nat_of_ascii c in
  if (((65 <=? n) && (n <=? 90))
      || ((192 <=? n) && (n <=? 222) && negb (n =? 215)))%nat
  then ascii_of_nat (n + 32) else c.

Fixpoint lower (s : string) : string :=
  match s with
  | EmptyString => EmptyString
  | String c s' => String (lower_char c) (lower s')
  end.

(** [bool(s)]: a string is true when it is not empty. *)
Definition truthy (s : string) : bool :=
  match s with
  | EmptyString => false
  | String _ _ => true
  end.

(** [s.split()]: the maximal runs of non-whitespace characters, [w] being
    the run read so far. *)
Fixpoint split_from (w s : string) : list string :=
  match s with
  | EmptyString => if truthy w then [w] else []
  | String c s' =>
      if isspace c
      then (if truthy w then w :: split_from EmptyString s'
            else split_from EmptyString s')
      else split_from (w +:+ String c EmptyString) s'
  end.

Definition split (s : string) : list string := split_from EmptyString s.

Fixpoint lstrip (s : string) : string :=
  match s with
  | EmptyString => EmptyString
  | String c s' => if isspace c then lstrip s' else s
  end.

Fixpoint rstrip (s : string) : string :=
  match s with
  | EmptyString => EmptyString
  | String c s' =>
      let r := rstrip s' in
      if isspace c && negb (truthy r) then EmptyString else String c r
  end.

(** [s.strip()] *)
Definition strip (s : string) : string := rstrip (lstrip s).

(** [a in b] on strings: [a] occurs in [b] as a substring. *)
Fixpoint contains (a b : string) : bool :=
  String.prefix a b ||
  match b with
  | EmptyString => false
  | String _ b' => contains a b'
  end.

(** [random.choice(seq)] with the draw [r]: the element at an index of
    [range(len(seq))]; an empty sequence raises [IndexError]. *)
Definition choice {A : Type} (r : nat) (seq : list A) : result A :=
  match seq !! (r mod length seq)%nat with
  | Some x => Ok x
  | None => Raise IndexError
  end.

(** [d.get(k, default)] and [d[k]] on a dict. *)
Definition get {V : Type} (d : gmap string V) (k : string) (default : V) : V :=
  match d !! k with
  | Some v => v
  | None => default
  end.

Definition item {V : Type} (d : gmap string V) (k : string) : result V :=
  match d !! k with
  | Some v => Ok v
  | None => Raise (KeyError k)
  end.

(** [d.get(k, default)] on a dict whose keys are strings, for a key [k] of
    any type: the key is hashed first, and a key that is not a string
    equals none of the dict's. *)
Definition get_key {V : Type} (d : gmap string V) (k : pyval) (default : V)
  : result V :=
  match k with
  | PyStr s => Ok (get d s default)
  | _ =>
      if hashable k then Ok default
      else Raise (TypeError ("unhashable type: '" +:+ type_name k +:+ "'"))
  end.

(** [v.strip()]: only a string has the method. *)
Definition strip_method (v : pyval) : result string :=
  match v with
  | PyStr s => Ok (strip s)
  | _ =>
      Raise (AttributeError
               ("'" +:+ type_name v +:+ "' object has no attribute 'strip'"))
  end.




End Py.

(** ** Data model *)

(** A [bytes] object: one chunk read from the microphone stream. *)
Definition bytes : Type := string.

(** [self.user_data], the persisted profile. The entries of ['sessions']
    are opaque here: no method of the class reads them. *)
Record UserData : Type := {
  sessions : list string;
  scores : list Z;
  total_sessions : Z;
  best_score : Z
}.

(** The dict [{"phrase": ..., "explanation": ...}] that phrase generation
    hands to the user interface. *)
Record PhraseData : Type := {
  phrase : string;
  explanation : string
}.

(** A call of [tkinter.messagebox]. *)
Inductive Dialog : Type :=
  | showwarning (title message : string)
  | showerror (title message : string).

(** [threading.Thread(target=..., args=...)]; the source passes no [args]
    anywhere, so [args] is the constructor's default, the empty tuple. *)
Inductive Target : Type :=
  | TargetGeneratePhrase
  | TargetRecord.

Record Thread : Type := {
  target : Target;
  args : list string;
  daemon : bool
}.

(** A callable handed to [self.root.after(0, ...)] by the phrase thread, to
    be run by the main loop: [lambda: self.update_phrase_ui(phrase_data)].
    (The recording thread hands over [process_recording_with_whisper] and
    [reset_record_button], two names the class does not define.) *)
Inductive Callback : Type :=
  | CallUpdatePhraseUi (phrase_data : PhraseData).

(** What the three widgets reconfigured after creation show. *)
Inductive StatusLabel : Type :=
  | LabelLoading
  | LabelLoadingNew
  | LabelReady.

Inductive GenerateBtn : Type :=
  | GenerateNormal
  | GenerateDisabled.

Inductive RecordBtn : Type :=
  | RecordAnalyze
  | StopRecording.

(** A JSON file as [open] and [json.load] see it: absent, present but not
    loadable, or holding a value. *)
Inductive File (A : Type) : Type :=
  | Missing
  | Unreadable
  | Json (a : A).

Arguments Missing {A}.
Arguments Unreadable {A}.
Arguments Json {A} a.

Definition data_file : string := "voicebuddy_data.json".
Definition settings_file : string := "voicebuddy_settings.json".

(** The two files of the working directory, whether [open(path, 'w')]
    succeeds on each, and the paths written so far, oldest first. *)
Record Disk : Type := {
  data_json : File UserData;
  settings_json : File (gmap string pyval);
  data_writable : bool;
  settings_writable : bool;
  writes : list string
}.

Definition default_user_data : UserData :=
  {| sessions := []; scores := []; total_sessions := 0; best_score := 0 |}.

Definition default_settings : gmap string pyval :=
  list_to_map
    [ ("focus_area", PyStr "general");
      ("difficulty_level", PyStr "beginner");
      ("topic_interest", PyStr "");
      ("phrase_length", PyStr "medium");
      ("whisper_model_size", PyStr "base") ].

(** ** The phrase provider: [call_ai_api_for_phrase]

    The method reads only [self.settings]; its two calls of
    [random.choice] take their draws from [Draws]. *)

Record Draws : Type := {
  draw_phrase : nat;
  draw_topic : nat;
  draw_fallback : nat
}.

Definition focus_areas : gmap string string :=
  list_to_map
    [ ("general", "balanced practice with common words");
      ("pronunciation", "challenging consonant and vowel combinations");
      ("articulation", "clear enunciation of difficult sounds");
      ("fluency", "smooth flowing sentences with natural rhythm");
      ("consonants", "emphasis on consonant clarity");
      ("vowels", "vowel sound differentiation");
      ("tongue_twisters", "alliterative phrases for agility") ].

Definition sample_phrases_items : list (string * list string) :=
  [ ("general",
      [ "The bright morning sun shines through the window.";
        "Children laughed as they played in the garden.";
        "Technology helps us connect with people worldwide." ]);
    ("pronunciation",
      [ "Thirty-three thousand feathers fell from fifty birds.";
        "The sixth sick sheik's sixth sheep's sick.";
        "How much wood would a woodchuck chuck if a woodchuck could chuck wood?" ]);
    ("articulation",
      [ "Red leather, yellow leather, red leather, yellow leather.";
        "Unique New York, unique New York, you know you need unique New York.";
        "The lips, the teeth, the tip of the tongue." ]);
    ("fluency",
      [ "The rain in Spain stays mainly in the plain, creating beautiful patterns across the landscape.";
        "A successful speech requires proper breathing, clear articulation, and confident delivery.";
        "Modern communication technology bridges distances but cannot replace personal connections." ]);
    ("consonants",
      [ "Betty bought some butter but the butter was bitter, so Betty bought some better butter.";
        "Six thick thistle sticks stood still in the thick mist.";
        "The quick brown fox jumps over the lazy dog's back." ]);
    ("vowels",
      [ "How now brown cow, eating grass beneath the bough.";
        "The owl hooted through the cool blue moon above the zoo.";
        "Each peach piece teaches speech through reach and beat." ]);
    ("tongue_twisters",
      [ "Sally sells seashells by the seashore, surely she shall see some shells soon.";
        "Rubber baby buggy bumpers bounce brightly by the bay.";
        "Fuzzy wuzzy was a bear, fuzzy wuzzy had no hair, fuzzy wuzzy wasn't fuzzy, was he?" ]) ].

Definition sample_phrases : gmap string (list string) :=
  list_to_map sample_phrases_items.

(** [sample_phrases['general']], a key the literal above defines. *)
Definition general_phrases : list string :=
  Py.get sample_phrases "general" [].

(** [topic_phrases.items()], in insertion order. *)
Definition topic_phrases : list (string * list string) :=
  [ ("animals",
      [ "The playful dolphins dance through the sparkling ocean waves.";
        "Majestic elephants trumpeted loudly across the African savanna.";
        "Colorful butterflies flutter gracefully among the blooming flowers." ]);
    ("technology",
      [ "Artificial intelligence transforms how we process information daily.";
        "Smartphones connect people instantly across vast global distances.";
        "Virtual reality creates immersive experiences beyond imagination." ]);
    ("sports",
      [ "Athletes train rigorously to achieve peak physical performance.";
        "The basketball bounced rhythmically against the gymnasium floor.";
        "Swimming strengthens muscles while improving cardiovascular health." ]) ].

(** [len(p.split())] *)
Definition word_count (p : string) : nat := length (Py.split p).

(** The two list comprehensions that filter by phrase length;
    [phrase_length] is [self.settings['phrase_length']]. *)
Definition length_filter (phrase_length : pyval) (phrases : list string)
  : list string :=
  if Py.eq_str phrase_length "short"
  then List.filter (fun p => (word_count p <? 8)%nat) phrases
  else if Py.eq_str phrase_length "long"
  then List.filter (fun p => (12 <? word_count p)%nat) phrases
  else phrases.

(** [phrases] as [random.choice] receives it: the filtered list, or the
    general table when the filter left nothing. *)
Definition candidates (phrase_length : pyval) (phrases : list string)
  : list string :=
  match length_filter phrase_length phrases with
  | [] => general_phrases
  | filtered => filtered
  end.

(** The [for topic, topic_phrase_list in topic_phrases.items()] loop: the
    first topic whose name occurs in the interest replaces the phrase. *)
Fixpoint topic_loop (items : list (string * list string))
    (topic_interest : string) (r : nat) (selected_phrase : string)
  : result string :=
  match items with
  | [] => Ok selected_phrase
  | (topic, topic_phrase_list) :: rest =>
      if Py.contains (Py.lower topic) (Py.lower topic_interest)
      then Py.choice r topic_phrase_list
      else topic_loop rest topic_interest r selected_phrase
  end.

Definition call_ai_api_for_phrase (settings : gmap string pyval) (d : Draws)
  : result PhraseData :=
  focus ← Py.item settings "focus_area";
  phrases ← Py.get_key sample_phrases focus general_phrases;
  phrase_length ← Py.item settings "phrase_length";
  selected_phrase ← Py.choice (draw_phrase d) (candidates phrase_length phrases);
  topic_interest ←
    Py.strip_method (Py.get settings "topic_interest" (PyStr ""));
  selected_phrase ←
    (if Py.truthy topic_interest
     then topic_loop topic_phrases topic_interest (draw_topic d) selected_phrase
     else Ok selected_phrase);
  focus_text ← Py.get_key focus_areas focus "general practice";
  difficulty_level ← Py.item settings "difficulty_level";
  let explanation :=
    "This phrase focuses on " +:+ focus_text
    +:+ " at " +:+ Py.str difficulty_level +:+ " level." in
  let explanation :=
    if Py.truthy topic_interest
    then explanation +:+ " Customized for your interest in " +:+ topic_interest
         +:+ "."
    else explanation in
  Ok {| phrase := selected_phrase; explanation := explanation |}.

(** The [fallback_phrases] of [_generate_phrase_thread]. *)
Definition fallback_phrases : list (string * string) :=
  [ ("The quick brown fox jumps over the lazy dog.",
     "Classic pangram for practicing all letters.");
    ("She sells seashells by the seashore.",
     "Great for practicing 'sh' and 's' sounds.");
    ("Peter Piper picked a peck of pickled peppers.",
     "Excellent alliteration practice.") ].

(** Every phrase of the list is a non-empty string. *)
Definition all_nonempty (l : list string) : Prop :=
  forall p, In p l -> p <> "".



(** ** The scorer *)

Module Scorer.

(** Modelled from the spec: the scorer is missing from the source. The
    punctuation stripped from both texts is the ASCII punctuation of
    [string.punctuation]. *)
Definition is_punctuation (c : ascii) : bool :=
  let n := nat_of_ascii c in
  (((33 <=? n) && (n <=? 47)) || ((58 <=? n) && (n <=? 64))
   || ((91 <=? n) && (n <=? 96)) || ((123 <=? n) && (n <=? 126)))%nat.

(** Modelled from the spec: the scorer is missing from the source. The
    text without its punctuation characters. *)
Fixpoint strip_punctuation (s : string) : string :=
  match s with
  | EmptyString => EmptyString
  | String c s' =>
      if is_punctuation c then strip_punctuation s'
      else String c (strip_punctuation s')
  end.

(** Modelled from the spec: the scorer is missing from the source, which
    names [process_recording_with_whisper] without defining it. The spec:
    normalize both to lowercase word sequences stripped of punctuation. *)
Definition normalize (s : string) : list string :=
  Py.split (strip_punctuation (Py.lower s)).

(** Modelled from the spec: the scorer is missing from the source. The
    spec: a longest-common-subsequence-style alignment between the two
    word sequences; this is the number of words it matches. *)
Fixpoint lcs (xs ys : list string) : nat :=
  match xs with
  | [] => 0
  | x :: xs' =>
      (fix inner (ys : list string) : nat :=
         match ys with
         | [] => 0
         | y :: ys' =>
             if String.eqb x y then S (lcs xs' ys')
             else Nat.max (lcs xs' ys) (inner ys')
         end) ys
  end.

(** Modelled from the spec: the scorer is missing from the source. [x]
    clamped to [[lo, hi]]. *)
Definition clamp (lo hi x : Z) : Z := Z.max lo (Z.min hi x).

(** Modelled from the spec: the scorer is missing from the source. The
    spec: (count of matched words / count of words in target phrase) x 100,
    rounded to the nearest integer, clamped to [0, 100]. A half is rounded
    up, the spec giving no rule for it. *)
Definition percentage (matched total : nat) : Z :=
  clamp 0 100
    ((200 * Z.of_nat matched + Z.of_nat total) / (2 * Z.of_nat total))%Z.

(** Modelled from the spec: the scorer is missing from the source. The
    spec: the percentage of the alignment of the transcript against the
    target phrase, with the edge case that an empty transcript scores 0
    (Scorer(T, "") returns 0 for all T). *)
Definition score (target_phrase transcript : string) : Z :=
  let expected := normalize target_phrase in
  let heard := normalize transcript in
  match heard with
  | [] => 0%Z
  | _ :: _ => percentage (lcs expected heard) (length expected)
  end.

(** Modelled from the spec: the scorer is missing from the source. The
    transcript is identical to the target phrase, case and punctuation
    aside: both normalize to the same words. *)
Definition same_words (target_phrase transcript : string) : Prop :=
  normalize transcript = normalize target_phrase.

End Scorer.

Section App.

(** The [whisper] module is external: the type of a loaded model and
    [whisper.load_model]. [SPEECH_AVAILABLE] is fixed when the module is
    imported. *)
Context {Model : Type}.
Variable whisper_load_model : pyval -> result Model.
Variable SPEECH_AVAILABLE : bool.

(** The attributes of a [VoiceBuddyAI] object, followed by the effects
    its methods have had outside of it. *)
Record VoiceBuddyAI : Type := {
  settings : gmap string pyval;
  user_data : UserData;
  whisper_model : option Model;
  current_phrase : string;
  current_context : string;
  is_recording : bool;
  audio_frames : list bytes;
  model_status_label : StatusLabel;
  generate_btn : GenerateBtn;
  record_btn : RecordBtn;
  phrase_text : string;
  context_text : string;
  dialogs : list Dialog;
  threads : list Thread;
  after_queue : list Callback;
  console : list string;
  disk : Disk
}.

Definition set_settings (v : gmap string pyval) (self : VoiceBuddyAI) : VoiceBuddyAI :=
  {| settings := v; user_data := user_data self;
     whisper_model := whisper_model self;
     current_phrase := current_phrase self;
     current_context := current_context self;
     is_recording := is_recording self; audio_frames := audio_frames self;
     model_status_label := model_status_label self;
     generate_btn := generate_btn self; record_btn := record_btn self;
     phrase_text := phrase_text self; context_text := context_text self;
     dialogs := dialogs self; threads := threads self;
     after_queue := after_queue self; console := console self;
     disk := disk self |}.

Definition set_whisper_model (v : option Model) (self : VoiceBuddyAI) : VoiceBuddyAI :=
  {| settings := settings self; user_data := user_data self;
     whisper_model := v; current_phrase := current_phrase self;
     current_context := current_context self;
     is_recording := is_recording self; audio_frames := audio_frames self;
     model_status_label := model_status_label self;
     generate_btn := generate_btn self; record_btn := record_btn self;
     phrase_text := phrase_text self; context_text := context_text self;
     dialogs := dialogs self; threads := threads self;
     after_queue := after_queue self; console := console self;
     disk := disk self |}.

Definition set_current_phrase (v : string) (self : VoiceBuddyAI) : VoiceBuddyAI :=
  {| settings := settings self; user_data := user_data self;
     whisper_model := whisper_model self; current_phrase := v;
     current_context := current_context self;
     is_recording := is_recording self; audio_frames := audio_frames self;
     model_status_label := model_status_label self;
     generate_btn := generate_btn self; record_btn := record_btn self;
     phrase_text := phrase_text self; context_text := context_text self;
     dialogs := dialogs self; threads := threads self;
     after_queue := after_queue self; console := console self;
     disk := disk self |}.

Definition set_current_context (v : string) (self : VoiceBuddyAI) : VoiceBuddyAI :=
  {| settings := settings self; user_data := user_data self;
     whisper_model := whisper_model self;
     current_phrase := current_phrase self; current_context := v;
     is_recording := is_recording self; audio_frames := audio_frames self;
     model_status_label := model_status_label self;
     generate_btn := generate_btn self; record_btn := record_btn self;
     phrase_text := phrase_text self; context_text := context_text self;
     dialogs := dialogs self; threads := threads self;
     after_queue := after_queue self; console := console self;
     disk := disk self |}.

Definition set_is_recording (v : bool) (self : VoiceBuddyAI) : VoiceBuddyAI :=
  {| settings := settings self; user_data := user_data self;
     whisper_model := whisper_model self;
     current_phrase := current_phrase self;
     current_context := current_context self; is_recording := v;
     audio_frames := audio_frames self;
     model_status_label := model_status_label self;
     generate_btn := generate_btn self; record_btn := record_btn self;
     phrase_text := phrase_text self; context_text := context_text self;
     dialogs := dialogs self; threads := threads self;
     after_queue := after_queue self; console := console self;
     disk := disk self |}.

Definition set_audio_frames (v : list bytes) (self : VoiceBuddyAI) : VoiceBuddyAI :=
  {| settings := settings self; user_data := user_data self;
     whisper_model := whisper_model self;
     current_phrase := current_phrase self;
     current_context := current_context self;
     is_recording := is_recording self; audio_frames := v;
     model_status_label := model_status_label self;
     generate_btn := generate_btn self; record_btn := record_btn self;
     phrase_text := phrase_text self; context_text := context_text self;
     dialogs := dialogs self; threads := threads self;
     after_queue := after_queue self; console := console self;
     disk := disk self |}.

Definition set_model_status_label (v : StatusLabel) (self : VoiceBuddyAI) : VoiceBuddyAI :=
  {| settings := settings self; user_data := user_data self;
     whisper_model := whisper_model self;
     current_phrase := current_phrase self;
     current_context := current_context self;
     is_recording := is_recording self; audio_frames := audio_frames self;
     model_status_label := v; generate_btn := generate_btn self;
     record_btn := record_btn self; phrase_text := phrase_text self;
     context_text := context_text self; dialogs := dialogs self;
     threads := threads self; after_queue := after_queue self;
     console := console self; disk := disk self |}.

Definition set_generate_btn (v : GenerateBtn) (self : VoiceBuddyAI) : VoiceBuddyAI :=
  {| settings := settings self; user_data := user_data self;
     whisper_model := whisper_model self;
     current_phrase := current_phrase self;
     current_context := current_context self;
     is_recording := is_recording self; audio_frames := audio_frames self;
     model_status_label := model_status_label self; generate_btn := v;
     record_btn := record_btn self; phrase_text := phrase_text self;
     context_text := context_text self; dialogs := dialogs self;
     threads := threads self; after_queue := after_queue self;
     console := console self; disk := disk self |}.

Definition set_record_btn (v : RecordBtn) (self : VoiceBuddyAI) : VoiceBuddyAI :=
  {| settings := settings self; user_data := user_data self;
     whisper_model := whisper_model self;
     current_phrase := current_phrase self;
     current_context := current_context self;
     is_recording := is_recording self; audio_frames := audio_frames self;
     model_status_label := model_status_label self;
     generate_btn := generate_btn self; record_btn := v;
     phrase_text := phrase_text self; context_text := context_text self;
     dialogs := dialogs self; threads := threads self;
     after_queue := after_queue self; console := console self;
     disk := disk self |}.

Definition set_phrase_text (v : string) (self : VoiceBuddyAI) : VoiceBuddyAI :=
  {| settings := settings self; user_data := user_data self;
     whisper_model := whisper_model self;
     current_phrase := current_phrase self;
     current_context := current_context self;
     is_recording := is_recording self; audio_frames := audio_frames self;
     model_status_label := model_status_label self;
     generate_btn := generate_btn self; record_btn := record_btn self;
     phrase_text := v; context_text := context_text self;
     dialogs := dialogs self; threads := threads self;
     after_queue := after_queue self; console := console self;
     disk := disk self |}.

Definition set_context_text (v : string) (self : VoiceBuddyAI) : VoiceBuddyAI :=
  {| settings := settings self; user_data := user_data self;
     whisper_model := whisper_model self;
     current_phrase := current_phrase self;
     current_context := current_context self;
     is_recording := is_recording self; audio_frames := audio_frames self;
     model_status_label := model_status_label self;
     generate_btn := generate_btn self; record_btn := record_btn self;
     phrase_text := phrase_text self; context_text := v;
     dialogs := dialogs self; threads := threads self;
     after_queue := after_queue self; console := console self;
     disk := disk self |}.

Definition set_dialogs (v : list Dialog) (self : VoiceBuddyAI) : VoiceBuddyAI :=
  {| settings := settings self; user_data := user_data self;
     whisper_model := whisper_model self;
     current_phrase := current_phrase self;
     current_context := current_context self;
     is_recording := is_recording self; audio_frames := audio_frames self;
     model_status_label := model_status_label self;
     generate_btn := generate_btn self; record_btn := record_btn self;
     phrase_text := phrase_text self; context_text := context_text self;
     dialogs := v; threads := threads self;
     after_queue := after_queue self; console := console self;
     disk := disk self |}.

Definition set_threads (v : list Thread) (self : VoiceBuddyAI) : VoiceBuddyAI :=
  {| settings := settings self; user_data := user_data self;
     whisper_model := whisper_model self;
     current_phrase := current_phrase self;
     current_context := current_context self;
     is_recording := is_recording self; audio_frames := audio_frames self;
     model_status_label := model_status_label self;
     generate_btn := generate_btn self; record_btn := record_btn self;
     phrase_text := phrase_text self; context_text := context_text self;
     dialogs := dialogs self; threads := v;
     after_queue := after_queue self; console := console self;
     disk := disk self |}.

Definition set_after_queue (v : list Callback) (self : VoiceBuddyAI) : VoiceBuddyAI :=
  {| settings := settings self; user_data := user_data self;
     whisper_model := whisper_model self;
     current_phrase := current_phrase self;
     current_context := current_context self;
     is_recording := is_recording self; audio_frames := audio_frames self;
     model_status_label := model_status_label self;
     generate_btn := generate_btn self; record_btn := record_btn self;
     phrase_text := phrase_text self; context_text := context_text self;
     dialogs := dialogs self; threads := threads self; after_queue := v;
     console := console self; disk := disk self |}.

Definition set_console (v : list string) (self : VoiceBuddyAI) : VoiceBuddyAI :=
  {| settings := settings self; user_data := user_data self;
     whisper_model := whisper_model self;
     current_phrase := current_phrase self;
     current_context := current_context self;
     is_recording := is_recording self; audio_frames := audio_frames self;
     model_status_label := model_status_label self;
     generate_btn := generate_btn self; record_btn := record_btn self;
     phrase_text := phrase_text self; context_text := context_text self;
     dialogs := dialogs self; threads := threads self;
     after_queue := after_queue self; console := v; disk := disk self |}.

Definition set_disk (v : Disk) (self : VoiceBuddyAI) : VoiceBuddyAI :=
  {| settings := settings self; user_data := user_data self;
     whisper_model := whisper_model self;
     current_phrase := current_phrase self;
     current_context := current_context self;
     is_recording := is_recording self; audio_frames := audio_frames self;
     model_status_label := model_status_label self;
     generate_btn := generate_btn self; record_btn := record_btn self;
     phrase_text := phrase_text self; context_text := context_text self;
     dialogs := dialogs self; threads := threads self;
     after_queue := after_queue self; console := console self;
     disk := v |}.

(** *** Effects outside the object *)

Definition print (line : string) (self : VoiceBuddyAI) : VoiceBuddyAI :=
  set_console (console self ++ [line]) self.

Definition messagebox (d : Dialog) (self : VoiceBuddyAI) : VoiceBuddyAI :=
  set_dialogs (dialogs self ++ [d]) self.

(** [thread = threading.Thread(target=t); thread.daemon = True;
    thread.start()] *)
Definition start_thread (t : Target) (self : VoiceBuddyAI) : VoiceBuddyAI :=
  set_threads
    (threads self ++ [{| target := t; args := []; daemon := true |}]) self.

(** [self.root.after(0, cb)] *)
Definition root_after (cb : Callback) (self : VoiceBuddyAI) : VoiceBuddyAI :=
  set_after_queue (after_queue self ++ [cb]) self.

(** *** Persistence: [load_data] and [save_data] *)

(** [with open(path, 'r') as f: json.load(f)] *)
Definition read_json {A : Type} (path : string) (f : File A) : result A :=
  match f with
  | Missing => Raise (FileNotFoundError path)
  | Unreadable => Raise (JSONDecodeError path)
  | Json a => Ok a
  end.

(** [try: ... except FileNotFoundError: default]; any other exception
    leaves the method. *)
Definition or_default {A : Type} (r : result A) (default : A) : result A :=
  match r with
  | Raise (FileNotFoundError _) => Ok default
  | _ => r
  end.

Definition load_data (d : Disk) : result (UserData * gmap string pyval) :=
  user_data ← or_default (read_json data_file (data_json d)) default_user_data;
  settings ←
    or_default (read_json settings_file (settings_json d)) default_settings;
  Ok (user_data, settings).

(** [with open(path, 'w') as f: json.dump(value, f, indent=2)] for each of
    the two files, once [open] has succeeded. *)
Definition write_data_file (u : UserData) (d : Disk) : Disk :=
  {| data_json := Json u;
     settings_json := settings_json d;
     data_writable := data_writable d;
     settings_writable := settings_writable d;
     writes := writes d ++ [data_file] |}.

Definition write_settings_file (s : gmap string pyval) (d : Disk) : Disk :=
  {| data_json := data_json d;
     settings_json := Json s;
     data_writable := data_writable d;
     settings_writable := settings_writable d;
     writes := writes d ++ [settings_file] |}.

(** [save_data]: the data file is written first; an [open] that raises
    ends the [try] block, and what follows it is not written. *)
Definition save_data (self : VoiceBuddyAI) : VoiceBuddyAI :=
  if data_writable (disk self)
  then
    let self :=
      set_disk (write_data_file (user_data self) (disk self)) self in
    if settings_writable (disk self)
    then set_disk (write_settings_file (settings self) (disk self)) self
    else print ("Error saving data: " +:+ exn_str (OSError settings_file)) self
  else print ("Error saving data: " +:+ exn_str (OSError data_file)) self.

(** *** The recognizer model *)

Definition load_whisper_model (self : VoiceBuddyAI) : VoiceBuddyAI :=
  let self :=
    print "Loading Whisper model... This may take a moment on first run."
      self in
  let model_size :=
    Py.get (settings self) "whisper_model_size" (PyStr "base") in
  match whisper_load_model model_size with
  | Ok m =>
      print
        ("Whisper model '" +:+ Py.str model_size +:+ "' loaded successfully!")
        (set_whisper_model (Some m) self)
  | Raise e =>
      set_whisper_model None
        (print ("Error loading Whisper model: " +:+ exn_str e) self)
  end.

(** [check_model_status]; the branch that finds no model re-arms a two
    second timer and changes nothing. *)
Definition check_model_status (self : VoiceBuddyAI) : VoiceBuddyAI :=
  match whisper_model self with
  | Some _ => set_model_status_label LabelReady self
  | None => self
  end.

Definition update_setting (key value : string) (self : VoiceBuddyAI)
  : VoiceBuddyAI :=
  let self := set_settings (<[key := PyStr value]> (settings self)) self in
  let self :=
    if String.eqb key "whisper_model_size" && SPEECH_AVAILABLE
    then
      load_whisper_model
        (set_whisper_model None (set_model_status_label LabelLoadingNew self))
    else self in
  save_data self.

(** *** Phrase generation *)

Definition generate_ai_phrase (self : VoiceBuddyAI) : VoiceBuddyAI :=
  start_thread TargetGeneratePhrase (set_generate_btn GenerateDisabled self).

(** The body of the thread started by [generate_ai_phrase]. An exception
    raised inside the [except] block is not caught: the thread ends with a
    traceback on the console. *)
Definition _generate_phrase_thread (d : Draws) (self : VoiceBuddyAI)
  : VoiceBuddyAI :=
  match call_ai_api_for_phrase (settings self) d with
  | Ok phrase_data => root_after (CallUpdatePhraseUi phrase_data) self
  | Raise e =>
      let self := print ("Error generating phrase: " +:+ exn_str e) self in
      match Py.choice (draw_fallback d) fallback_phrases with
      | Ok (phrase, context) =>
          root_after
            (CallUpdatePhraseUi {| phrase := phrase; explanation := context |})
            self
      | Raise e' => print ("Traceback: " +:+ exn_str e') self
      end
  end.

(** [update_phrase_ui]. The text of [context_text] starts with a
    pictograph in the source, left out here. *)
Definition update_phrase_ui (phrase_data : PhraseData) (self : VoiceBuddyAI)
  : VoiceBuddyAI :=
  let self := set_current_phrase (phrase phrase_data) self in
  let self := set_current_context (explanation phrase_data) self in
  let self := set_phrase_text (current_phrase self) self in
  let self :=
    set_context_text ("Why this phrase: " +:+ current_context self) self in
  set_generate_btn GenerateNormal self.

(** *** Recording *)

Definition start_recording (self : VoiceBuddyAI) : VoiceBuddyAI :=
  let self := set_is_recording true self in
  let self := set_audio_frames [] self in
  let self := set_record_btn StopRecording self in
  start_thread TargetRecord self.

Definition stop_recording (self : VoiceBuddyAI) : VoiceBuddyAI :=
  set_is_recording false self.

Definition toggle_recording (self : VoiceBuddyAI) : VoiceBuddyAI :=
  if negb SPEECH_AVAILABLE
  then
    messagebox
      (showwarning "Feature Unavailable"
         "Speech recognition not available. Please install openai-whisper and pyaudio.")
      self
  else
    match whisper_model self with
    | None =>
        messagebox
          (showwarning "Model Loading"
             "Whisper model is still loading. Please wait a moment.")
          self
    | Some _ =>
        if negb (Py.truthy (current_phrase self))
        then
          messagebox
            (showwarning "No Phrase" "Please generate a phrase first!") self
        else if negb (is_recording self)
        then start_recording self
        else stop_recording self
    end.

(** One pass through the body of the [while self.is_recording] loop of the
    thread [record] started by [start_recording]. *)
Definition record_append (data : bytes) (self : VoiceBuddyAI) : VoiceBuddyAI :=
  set_audio_frames (audio_frames self ++ [data]) self.

(** *** The main loop running a callback of [root.after] *)

Definition run_callback (cb : Callback) (self : VoiceBuddyAI) : VoiceBuddyAI :=
  match cb with
  | CallUpdatePhraseUi phrase_data => update_phrase_ui phrase_data self
  end.

(** *** The rules of the spec on background work, in its words *)

(** Sessions with different target phrases have different identifiers. *)
Definition identifies_sessions {Id : Type} (live : VoiceBuddyAI -> Id) : Prop :=
  forall s1 s2 : VoiceBuddyAI,
    current_phrase s1 <> current_phrase s2 -> live s1 <> live s2.

(** A completion whose identifier is not the live session's is dropped:
    running it leaves the object as it was. *)
Definition discards_stale {Id : Type} (live : VoiceBuddyAI -> Id)
    (tag : Callback -> Id) : Prop :=
  forall (self : VoiceBuddyAI) (cb : Callback),
    tag cb <> live self -> run_callback cb self = self.

(** Between [self] and [self'] some thread was started. *)
Definition thread_started (self self' : VoiceBuddyAI) : Prop :=
  (length (threads self) < length (threads self'))%nat.

(** *** The recording loop *)

(** The [while self.is_recording] loop of the thread [record], run by
    itself on the chunks [stream.read] returns one after the other: the flag
    is tested before each read, and the loop is left when it is false. No
    other thread runs in between: a press of the button that lands while a
    read is blocked is outside of what this function describes. *)
Fixpoint record_loop (reads : list bytes) (self : VoiceBuddyAI) : VoiceBuddyAI :=
  match reads with
  | [] => self
  | data :: reads' =>
      if is_recording self then record_loop reads' (record_append data self)
      else self
  end.

(** *** The constructor *)


End App.

(** ** Concrete objects *)

Definition writable_disk : Disk :=
  {| data_json := Missing; settings_json := Missing;
     data_writable := true; settings_writable := true; writes := [] |}.

(** An object with a loaded model and a phrase on display. *)
Definition ready_app : @VoiceBuddyAI unit :=
  {| settings := default_settings;
     user_data := default_user_data;
     whisper_model := Some tt;
     current_phrase := "She sells seashells by the seashore.";
     current_context := "Great for practicing 'sh' and 's' sounds.";
     is_recording := false;
     audio_frames := [];
     model_status_label := LabelReady;
     generate_btn := GenerateNormal;
     record_btn := RecordAnalyze;
     phrase_text := "She sells seashells by the seashore.";
     context_text := "Why this phrase: Great for practicing 'sh' and 's' sounds.";
     dialogs := [];
     threads := [];
     after_queue := [];
     console := [];
     disk := writable_disk |}.

(** The same object after the record button was pressed and the recording
    thread has read one chunk. *)
Definition recording_app : @VoiceBuddyAI unit :=
  record_append "chunk" (toggle_recording true ready_app).

(** The same object when the model could not be loaded. *)
Definition unloaded_app : @VoiceBuddyAI unit :=
  set_whisper_model None ready_app.

(** The recording object when the model could not be reloaded. *)
Definition unloaded_recording_app : @VoiceBuddyAI unit :=
  set_whisper_model None recording_app.

(** The same object with a settings dict that holds no key. *)
Definition unconfigured_app : @VoiceBuddyAI unit :=
  set_settings ∅ ready_app.

(** The same object showing a new phrase. *)
Definition other_app : @VoiceBuddyAI unit :=
  set_current_phrase "Peter Piper picked a peck of pickled peppers." ready_app.

(** The profile of the scenario of the spec, and the same scores in a
    profile whose stored best score is 0. *)
Definition sample_profile : UserData :=
  {| sessions := []; scores := [60; 80; 100]%Z; total_sessions := 3;
     best_score := 100 |}.




(** A directory whose data file cannot be opened for writing, one whose
    settings file cannot, and one whose settings file is not valid JSON. *)
Definition data_locked_disk : Disk :=
  {| data_json := Json sample_profile; settings_json := Json default_settings;
     data_writable := false; settings_writable := true; writes := [] |}.

Definition settings_locked_disk : Disk :=
  {| data_json := Missing; settings_json := Json default_settings;
     data_writable := true; settings_writable := false; writes := [] |}.

Definition corrupt_settings_disk : Disk :=
  {| data_json := Json sample_profile; settings_json := Unreadable;
     data_writable := true; settings_writable := true; writes := [] |}.

(** Settings that name a topic and ask for long phrases, settings without a
    topic that ask for long phrases of the fluency table, settings that ask
    for long phrases of the vowels table, which has none, and settings whose
    topic interest is the JSON value [null]. *)
Definition sports_settings : gmap string pyval :=
  <["topic_interest" := PyStr " I like SPORTS "]>
    (<["phrase_length" := PyStr "long"]> default_settings).

Definition long_fluency_settings : gmap string pyval :=
  <["focus_area" := PyStr "fluency"]>
    (<["phrase_length" := PyStr "long"]> default_settings).



(** The same object before any phrase was generated. *)
Definition phraseless_app : @VoiceBuddyAI unit :=
  set_context_text ""
    (set_phrase_text "Click 'Generate AI Phrase' to get started!"
       (set_current_context "" (set_current_phrase "" ready_app))).

(** A loader that always succeeds, and one that always fails. *)
Definition load_ok (model_size : pyval) : result unit := Ok tt.
Definition load_fails (model_size : pyval) : result unit :=
  Raise (RuntimeError "model download failed").

Definition draws_0 : Draws :=
  {| draw_phrase := 0; draw_topic := 0; draw_fallback := 1 |}.

(** The phrase has at least one word once normalized for scoring. *)
Definition has_words (p : string) : Prop := Scorer.normalize p <> [].

(** The stripped topic interest names one of the known topics. *)
Definition names_topic (topic_interest : string) : bool :=
  existsb
    (fun item => Py.contains (Py.lower (fst item)) (Py.lower topic_interest))
    topic_phrases.

(** ** Properties of the built-ins *)

Lemma choice_ok {A : Type} (r : nat) (seq : list A) :
  seq <> [] -> exists x, Py.choice r seq = Ok x /\ In x seq.
Proof.
  intros Hne. unfold Py.choice.
  assert (Hlt : (r mod length seq < length seq)%nat).
  { apply Nat.mod_upper_bound. destruct seq; [congruence | discriminate]. }
  destruct (lookup_lt_is_Some_2 _ _ Hlt) as [x Hx].
  rewrite Hx. exists x. split; [reflexivity |].
  apply list_elem_of_In. eapply list_elem_of_lookup_2. exact Hx.
Qed.

Lemma choice_empty {A : Type} (r : nat) :
  Py.choice r (@nil A) = Raise IndexError.
Proof. reflexivity. Qed.

Lemma get_key_str {V : Type} (d : gmap string V) (s : string) (default : V) :
  Py.get_key d (PyStr s) default = Ok (Py.get d s default).
Proof. reflexivity. Qed.

(** A lookup with a key of any type returns when the key can be hashed,
    and raises [TypeError] when it cannot. *)
Lemma get_key_hashable {V : Type} (d : gmap string V) (k : pyval) (default : V) :
  Py.hashable k = true -> exists v, Py.get_key d k default = Ok v.
Proof. destruct k; simpl; intros H; try discriminate; eexists; reflexivity. Qed.

Lemma get_key_unhashable {V : Type} (d : gmap string V) (k : pyval)
    (default : V) :
  Py.hashable k = false ->
  Py.get_key d k default
  = Raise (TypeError ("unhashable type: '" +:+ Py.type_name k +:+ "'")).
Proof. destruct k; simpl; intros H; try discriminate; reflexivity. Qed.

Lemma get_key_ok_hashable {V : Type} (d : gmap string V) (k : pyval)
    (default v : V) :
  Py.get_key d k default = Ok v -> Py.hashable k = true.
Proof. destruct k; simpl; intros H; try discriminate; reflexivity. Qed.

Lemma strip_method_ok (v : pyval) (s : string) :
  Py.strip_method v = Ok s -> exists s0, v = PyStr s0 /\ s = Py.strip s0.
Proof.
  destruct v; simpl; intros H; try discriminate.
  injection H as <-. eexists. split; reflexivity.
Qed.

Lemma strip_method_raise (v : pyval) (e : exn) :
  Py.strip_method v = Raise e ->
  (forall s, v <> PyStr s)
  /\ e = AttributeError
           ("'" +:+ Py.type_name v +:+ "' object has no attribute 'strip'").
Proof.
  destruct v; simpl; intros H; try discriminate;
    injection H as <-; (split; [intros s0; discriminate | reflexivity]).
Qed.

(** ** Properties of the phrase provider *)

Lemma general_phrases_eq :
  general_phrases =
  [ "The bright morning sun shines through the window.";
    "Children laughed as they played in the garden.";
    "Technology helps us connect with people worldwide." ].
Proof. vm_compute. reflexivity. Qed.

Lemma general_phrases_nonempty : all_nonempty general_phrases.
Proof.
  rewrite general_phrases_eq. intros p Hp. simpl in Hp.
  intuition (subst; discriminate).
Qed.

Lemma sample_phrases_nonempty (focus : string) :
  all_nonempty (Py.get sample_phrases focus general_phrases).
Proof.
  unfold Py.get. destruct (sample_phrases !! focus) as [l |] eqn:E.
  - unfold sample_phrases in E. apply elem_of_list_to_map_2 in E.
    apply list_elem_of_In in E. unfold sample_phrases_items in E.
    simpl in E.
    repeat (destruct E as [E | E];
            [ injection E as _ <-; intros p Hp; simpl in Hp;
              intuition (subst; discriminate) | ]).
    contradiction.
  - apply general_phrases_nonempty.
Qed.

Lemma sample_phrases_not_nil (focus : string) :
  Py.get sample_phrases focus general_phrases <> [].
Proof.
  unfold Py.get. destruct (sample_phrases !! focus) as [l |] eqn:E.
  - unfold sample_phrases in E. apply elem_of_list_to_map_2 in E.
    apply list_elem_of_In in E. unfold sample_phrases_items in E.
    simpl in E.
    repeat (destruct E as [E | E]; [injection E as _ <-; discriminate |]).
    contradiction.
  - rewrite general_phrases_eq. discriminate.
Qed.

(** The table [sample_phrases.get(focus, ...)] returns, for a focus area of
    any type, has phrases and no empty one. *)
Lemma focus_table_nonempty (focus : pyval) (table : list string) :
  Py.get_key sample_phrases focus general_phrases = Ok table ->
  table <> [] /\ all_nonempty table.
Proof.
  destruct focus; simpl; intros H; try discriminate; injection H as <-;
    first [ split; [apply sample_phrases_not_nil | apply sample_phrases_nonempty]
          | split; [rewrite general_phrases_eq; discriminate
                   | apply general_phrases_nonempty] ].
Qed.

Lemma length_filter_In (phrase_length : pyval) (phrases : list string) p :
  In p (length_filter phrase_length phrases) -> In p phrases.
Proof.
  unfold length_filter.
  destruct (Py.eq_str phrase_length "short");
    [| destruct (Py.eq_str phrase_length "long")];
    rewrite ?filter_In; tauto.
Qed.

Lemma candidates_not_nil (phrase_length : pyval) (phrases : list string) :
  candidates phrase_length phrases <> [].
Proof.
  unfold candidates.
  destruct (length_filter _ _); [| discriminate].
  rewrite general_phrases_eq. discriminate.
Qed.

Lemma candidates_nonempty (phrase_length : pyval) (phrases : list string) :
  all_nonempty phrases -> all_nonempty (candidates phrase_length phrases).
Proof.
  intros Hall. unfold candidates.
  destruct (length_filter _ _) as [| q l] eqn:E.
  - apply general_phrases_nonempty.
  - intros p Hp. rewrite <- E in Hp. apply length_filter_In in Hp.
    exact (Hall p Hp).
Qed.

(** The list [random.choice] draws from is the filtered table when the
    filter leaves a phrase, and the general table when it leaves none. *)
Lemma candidates_cases (phrase_length : pyval) (phrases : list string) :
  (length_filter phrase_length phrases <> []
   /\ candidates phrase_length phrases = length_filter phrase_length phrases)
  \/ (length_filter phrase_length phrases = []
      /\ candidates phrase_length phrases = general_phrases).
Proof.
  unfold candidates.
  destruct (length_filter phrase_length phrases) as [| q l];
    [right | left]; split; try reflexivity; discriminate.
Qed.

Lemma topic_phrases_nonempty (topic : string) (l : list string) :
  In (topic, l) topic_phrases -> l <> [] /\ all_nonempty l.
Proof.
  unfold topic_phrases. simpl. intros H.
  repeat (destruct H as [H | H];
          [ injection H as _ <-; split; [discriminate |];
            intros p Hp; simpl in Hp; intuition (subst; discriminate) | ]).
  contradiction.
Qed.

Lemma topic_word_counts (topic : string) (l : list string) (p : string) :
  In (topic, l) topic_phrases -> In p l ->
  (7 <= word_count p <= 9)%nat.
Proof.
  unfold topic_phrases. simpl. intros H Hp.
  repeat (destruct H as [H | H];
          [ injection H as _ <-; simpl in Hp;
            repeat (destruct Hp as [<- | Hp]; [vm_compute; lia |]);
            contradiction | ]).
  contradiction.
Qed.

Lemma topic_loop_ok (items : list (string * list string))
    (topic_interest : string) (r : nat) (selected_phrase : string) :
  (forall topic l, In (topic, l) items -> l <> [] /\ all_nonempty l) ->
  selected_phrase <> "" ->
  exists p, topic_loop items topic_interest r selected_phrase = Ok p /\ p <> "".
Proof.
  induction items as [| [topic l] rest IH]; intros Hitems Hsel; simpl.
  - exists selected_phrase. split; [reflexivity | assumption].
  - destruct (Py.contains _ _).
    + destruct (Hitems topic l (or_introl eq_refl)) as [Hne Hall].
      destruct (choice_ok r l Hne) as [p [Hp Hin]].
      exists p. split; [exact Hp | exact (Hall p Hin)].
    + apply IH; [| assumption].
      intros t l' Hin. apply (Hitems t l'). right. exact Hin.
Qed.

Lemma topic_loop_match (items : list (string * list string))
    (interest : string) (r : nat) (selected_phrase : string) :
  (forall topic l, In (topic, l) items -> l <> [] /\ all_nonempty l) ->
  existsb (fun item => Py.contains (Py.lower (fst item)) (Py.lower interest))
    items = true ->
  exists topic l p,
    In (topic, l) items
    /\ Py.contains (Py.lower topic) (Py.lower interest) = true
    /\ topic_loop items interest r selected_phrase = Ok p
    /\ In p l.
Proof.
  induction items as [| [topic l] rest IH]; intros Hitems Hex; simpl in *.
  - discriminate.
  - destruct (Py.contains (Py.lower topic) (Py.lower interest)) eqn:E.
    + destruct (Hitems topic l (or_introl eq_refl)) as [Hne _].
      destruct (choice_ok r l Hne) as [p [Hp Hin]].
      exists topic, l, p. auto.
    + simpl in Hex.
      destruct IH as (t & l' & p & Hin & Hc & Hloop & Hp); [| exact Hex |].
      * intros t l' Hin. apply (Hitems t l'). right. exact Hin.
      * exists t, l', p. auto.
Qed.

Lemma topic_loop_no_match (items : list (string * list string))
    (interest : string) (r : nat) (selected_phrase : string) :
  existsb (fun item => Py.contains (Py.lower (fst item)) (Py.lower interest))
    items = false ->
  topic_loop items interest r selected_phrase = Ok selected_phrase.
Proof.
  induction items as [| [topic l] rest IH]; intros Hex; simpl in *.
  - reflexivity.
  - destruct (Py.contains (Py.lower topic) (Py.lower interest)); simpl in Hex;
      [discriminate | exact (IH Hex)].
Qed.

Lemma names_topic_truthy (interest : string) :
  names_topic interest = true -> Py.truthy interest = true.
Proof.
  unfold names_topic. destruct interest; [vm_compute; discriminate | reflexivity].
Qed.

(** When every step before the end succeeds, [call_ai_api_for_phrase]
    returns the phrase the topic loop ends with, started from a phrase of
    the candidate list. *)
Lemma call_ai_api_for_phrase_run (settings : gmap string pyval) (d : Draws)
    (focus phrase_length difficulty_level : pyval) (table : list string)
    (interest : string) :
  settings !! "focus_area" = Some focus ->
  Py.get_key sample_phrases focus general_phrases = Ok table ->
  settings !! "phrase_length" = Some phrase_length ->
  Py.strip_method (Py.get settings "topic_interest" (PyStr "")) = Ok interest ->
  settings !! "difficulty_level" = Some difficulty_level ->
  exists p0 p explanation,
    In p0 (candidates phrase_length table)
    /\ (if Py.truthy interest
        then topic_loop topic_phrases interest (draw_topic d) p0
        else Ok p0) = Ok p
    /\ p <> ""
    /\ call_ai_api_for_phrase settings d
       = Ok {| phrase := p; explanation := explanation |}.
Proof.
  intros Hfocus Htable Hlen Hstrip Hlevel.
  unfold call_ai_api_for_phrase, Py.item.
  rewrite Hfocus. cbn [mbind result_bind]. rewrite Htable.
  cbn [mbind result_bind]. rewrite Hlen. cbn [mbind result_bind].
  destruct (focus_table_nonempty focus table Htable) as [_ Hall].
  destruct (choice_ok (draw_phrase d) (candidates phrase_length table)
              (candidates_not_nil phrase_length table)) as [p0 [Hp0 Hin]].
  rewrite Hp0. cbn [mbind result_bind]. rewrite Hstrip.
  cbn [mbind result_bind].
  pose proof (candidates_nonempty phrase_length table Hall p0 Hin) as Hne.
  destruct (get_key_hashable focus_areas focus "general practice"
              (get_key_ok_hashable _ _ _ _ Htable)) as [text Htext].
  destruct (Py.truthy interest).
  - destruct (topic_loop_ok topic_phrases interest (draw_topic d) p0
                topic_phrases_nonempty Hne) as [q [Hq Hqne]].
    rewrite Hq. cbn [mbind result_bind]. rewrite Htext.
    cbn [mbind result_bind]. rewrite Hlevel. cbn [mbind result_bind].
    exists p0, q. eexists. repeat split; auto.
  - cbn [mbind result_bind]. rewrite Htext.
    cbn [mbind result_bind]. rewrite Hlevel. cbn [mbind result_bind].
    exists p0, p0. eexists. repeat split; auto.
Qed.

(** Every way [call_ai_api_for_phrase] can end: with a non-empty phrase, or
    with the exception of the first step that fails. *)
Lemma call_ai_api_for_phrase_cases (settings : gmap string pyval) (d : Draws) :
  (exists phrase_data,
      call_ai_api_for_phrase settings d = Ok phrase_data
      /\ phrase phrase_data <> ""
      /\ (exists focus, settings !! "focus_area" = Some focus
                        /\ Py.hashable focus = true)
      /\ settings !! "phrase_length" <> None
      /\ settings !! "difficulty_level" <> None
      /\ exists s, Py.get settings "topic_interest" (PyStr "") = PyStr s)
  \/ (exists key,
        call_ai_api_for_phrase settings d = Raise (KeyError key)
        /\ settings !! key = None
        /\ In key ["focus_area"; "phrase_length"; "difficulty_level"])
  \/ (exists focus,
        settings !! "focus_area" = Some focus
        /\ Py.hashable focus = false
        /\ call_ai_api_for_phrase settings d
           = Raise (TypeError
                      ("unhashable type: '" +:+ Py.type_name focus +:+ "'")))
  \/ (exists v,
        Py.get settings "topic_interest" (PyStr "") = v
        /\ (forall s, v <> PyStr s)
        /\ call_ai_api_for_phrase settings d
           = Raise (AttributeError
                      ("'" +:+ Py.type_name v
                       +:+ "' object has no attribute 'strip'"))).
Proof.
  destruct (settings !! "focus_area") as [focus |] eqn:Ef.
  2: { right; left. exists "focus_area".
       unfold call_ai_api_for_phrase, Py.item. rewrite Ef.
       split; [reflexivity |]. split; [first [exact Ef | reflexivity] | simpl; tauto]. }
  destruct (Py.get_key sample_phrases focus general_phrases) as [table | e]
    eqn:Et.
  2: { right; right; left. exists focus. split; [reflexivity |].
       assert (Hh : Py.hashable focus = false).
       { destruct (Py.hashable focus) eqn:Hh; [| reflexivity].
         destruct (get_key_hashable sample_phrases focus general_phrases Hh)
           as [v Hv]. congruence. }
       split; [exact Hh |].
       unfold call_ai_api_for_phrase, Py.item. rewrite Ef.
       cbn [mbind result_bind].
       rewrite (get_key_unhashable sample_phrases focus general_phrases Hh).
       reflexivity. }
  destruct (settings !! "phrase_length") as [len |] eqn:El.
  2: { right; left. exists "phrase_length".
       unfold call_ai_api_for_phrase, Py.item. rewrite Ef.
       cbn [mbind result_bind]. rewrite Et. cbn [mbind result_bind].
       rewrite El. split; [reflexivity |]. split; [first [exact El | reflexivity] | simpl; tauto]. }
  destruct (choice_ok (draw_phrase d) (candidates len table)
              (candidates_not_nil len table)) as [p0 [Hp0 Hin]].
  destruct (Py.strip_method (Py.get settings "topic_interest" (PyStr "")))
    as [interest | e] eqn:Es.
  2: { right; right; right. eexists. split; [reflexivity |].
       destruct (strip_method_raise _ _ Es) as [Hns He].
       split; [exact Hns |].
       unfold call_ai_api_for_phrase, Py.item. rewrite Ef.
       cbn [mbind result_bind]. rewrite Et. cbn [mbind result_bind].
       rewrite El. cbn [mbind result_bind]. rewrite Hp0.
       cbn [mbind result_bind]. rewrite Es. rewrite He. reflexivity. }
  destruct (settings !! "difficulty_level") as [level |] eqn:Ed.
  - left.
    destruct (call_ai_api_for_phrase_run settings d focus len level table
                interest Ef Et El Es Ed) as (q0 & q & ex & _ & _ & Hq & Hcall).
    eexists. split; [exact Hcall |]. split; [exact Hq |].
    split; [exists focus; split;
            [reflexivity | exact (get_key_ok_hashable _ _ _ _ Et)] |].
    split; [discriminate |]. split; [discriminate |].
    destruct (strip_method_ok _ _ Es) as (s0 & Hs0 & _). exists s0. exact Hs0.
  - right; left. exists "difficulty_level".
    split; [| split; [exact Ed | simpl; tauto]].
    unfold call_ai_api_for_phrase, Py.item. rewrite Ef.
    cbn [mbind result_bind]. rewrite Et. cbn [mbind result_bind].
    rewrite El. cbn [mbind result_bind]. rewrite Hp0.
    cbn [mbind result_bind]. rewrite Es. cbn [mbind result_bind].
    pose proof (candidates_nonempty len table
                  (proj2 (focus_table_nonempty focus table Et)) p0 Hin) as Hne.
    destruct (get_key_hashable focus_areas focus "general practice"
                (get_key_ok_hashable _ _ _ _ Et)) as [text Htext].
    destruct (Py.truthy interest).
    + destruct (topic_loop_ok topic_phrases interest (draw_topic d) p0
                  topic_phrases_nonempty Hne) as [q [Hq _]].
      rewrite Hq. cbn [mbind result_bind]. rewrite Htext.
      cbn [mbind result_bind]. rewrite Ed. reflexivity.
    + cbn [mbind result_bind]. rewrite Htext. cbn [mbind result_bind].
      rewrite Ed. reflexivity.
Qed.


(** ** Properties of the application object *)

Section Properties.

Context {Model : Type}.
Variable whisper_load_model : pyval -> result Model.
Variable SPEECH_AVAILABLE : bool.
Local Abbreviation App := (@VoiceBuddyAI Model).

Implicit Type self : App.

(** A message box changes nothing but the list of dialogs shown. *)
Lemma messagebox_frame (d : Dialog) self :
  let self' := messagebox d self in
  dialogs self' = dialogs self ++ [d]
  /\ is_recording self' = is_recording self
  /\ audio_frames self' = audio_frames self
  /\ threads self' = threads self
  /\ record_btn self' = record_btn self
  /\ whisper_model self' = whisper_model self
  /\ current_phrase self' = current_phrase self.
Proof. simpl. repeat split. Qed.

(** Loading the model touches the model handle and the console only. *)
Lemma load_whisper_model_frame self :
  let self' := load_whisper_model whisper_load_model self in
  settings self' = settings self
  /\ user_data self' = user_data self
  /\ disk self' = disk self
  /\ threads self' = threads self
  /\ after_queue self' = after_queue self
  /\ is_recording self' = is_recording self
  /\ audio_frames self' = audio_frames self
  /\ current_phrase self' = current_phrase self
  /\ model_status_label self' = model_status_label self
  /\ whisper_model self' =
     match whisper_load_model
             (Py.get (settings self) "whisper_model_size" (PyStr "base")) with
     | Ok m => Some m
     | Raise _ => None
     end.
Proof.
  unfold load_whisper_model. simpl.
  destruct (whisper_load_model _); simpl; repeat split.
Qed.

(** Saving touches the disk and the console only. *)
Lemma save_data_frame self :
  let self' := save_data self in
  threads self' = threads self
  /\ after_queue self' = after_queue self
  /\ whisper_model self' = whisper_model self
  /\ model_status_label self' = model_status_label self
  /\ is_recording self' = is_recording self
  /\ audio_frames self' = audio_frames self
  /\ current_phrase self' = current_phrase self
  /\ settings self' = settings self
  /\ user_data self' = user_data self.
Proof.
  unfold save_data.
  destruct (data_writable (disk self)); simpl;
    [destruct (settings_writable (disk self)) |]; simpl; repeat split.
Qed.

(** C3. When no model is loaded, the record command is turned down with
    a warning, titled "Feature Unavailable" or "Model Loading", and the
    object is otherwise as before: no recording begins, [is_recording]
    and [audio_frames] keep their values and no thread is started. *)
Theorem toggle_recording_without_model self :
  whisper_model self = None ->
  let self' := toggle_recording SPEECH_AVAILABLE self in
  (exists title message,
      self' = messagebox (showwarning title message) self
      /\ (title = "Feature Unavailable" \/ title = "Model Loading"))
  /\ is_recording self' = is_recording self
  /\ audio_frames self' = audio_frames self
  /\ threads self' = threads self
  /\ record_btn self' = record_btn self
  /\ whisper_model self' = None.
Proof.
  intros Hnone self'. subst self'. unfold toggle_recording.
  rewrite Hnone.
  destruct SPEECH_AVAILABLE; simpl;
    (split; [eexists _, _; split; [reflexivity | auto] | auto]).
Qed.

(** C1, amended. While a recording is in progress the record command
    never reaches [start_recording]: it starts no thread and leaves
    [audio_frames] and the button as they are. With the speech modules, a
    model and a phrase at hand it stops the recording; otherwise it only
    shows a warning and changes nothing else: "Feature Unavailable" without
    the speech modules, else "Model Loading" without a model, else
    "No Phrase" without a phrase. [start_recording] itself has no guard: it
    empties [audio_frames] and starts a recording thread in whatever state
    it is called. *)
Theorem toggle_recording_while_recording self :
  is_recording self = true ->
  let self' := toggle_recording SPEECH_AVAILABLE self in
  audio_frames self' = audio_frames self
  /\ threads self' = threads self
  /\ record_btn self' = record_btn self
  /\ (self' = stop_recording self
      \/ exists title message,
           self' = messagebox (showwarning title message) self)
  /\ (SPEECH_AVAILABLE = true -> whisper_model self <> None ->
      current_phrase self <> "" ->
      self' = stop_recording self /\ is_recording self' = false)
  /\ audio_frames (start_recording self) = []
  /\ threads (start_recording self) =
     threads self ++ [{| target := TargetRecord; args := []; daemon := true |}]
  /\ (SPEECH_AVAILABLE = false ->
      self' =
      messagebox
        (showwarning "Feature Unavailable"
           "Speech recognition not available. Please install openai-whisper and pyaudio.")
        self)
  /\ (SPEECH_AVAILABLE = true -> whisper_model self = None ->
      self' =
      messagebox
        (showwarning "Model Loading"
           "Whisper model is still loading. Please wait a moment.")
        self)
  /\ (SPEECH_AVAILABLE = true -> whisper_model self <> None ->
      current_phrase self = "" ->
      self' =
      messagebox (showwarning "No Phrase" "Please generate a phrase first!")
        self).
Proof.
  intros Hrec self'. subst self'. unfold toggle_recording.
  rewrite Hrec.
  destruct SPEECH_AVAILABLE, (whisper_model self) as [m |],
    (current_phrase self) as [| c p]; simpl;
    repeat split; eauto; try congruence.
Qed.

Lemma fallback_phrases_nonempty (p c : string) :
  In (p, c) fallback_phrases -> p <> "" /\ c <> "".
Proof.
  unfold fallback_phrases. simpl. intros H.
  repeat (destruct H as [H | H];
          [injection H as <- <-; split; discriminate |]).
  contradiction.
Qed.

(** C4. When [call_ai_api_for_phrase] raises, the thread prints the
    error on the console, draws a phrase and its rationale from the three
    built-in fallback pairs and hands exactly one callback to the main
    loop, the update of the phrase display with that pair. No dialog is
    shown, and running the callback makes the pair the current phrase and
    context. *)
Theorem generate_phrase_thread_fallback self (d : Draws) (e : exn) :
  call_ai_api_for_phrase (settings self) d = Raise e ->
  let self' := _generate_phrase_thread d self in
  exists p c,
    In (p, c) fallback_phrases
    /\ p <> ""
    /\ c <> ""
    /\ self' =
       root_after (CallUpdatePhraseUi {| phrase := p; explanation := c |})
         (print ("Error generating phrase: " +:+ exn_str e) self)
    /\ after_queue self' =
       after_queue self
       ++ [CallUpdatePhraseUi {| phrase := p; explanation := c |}]
    /\ dialogs self' = dialogs self
    /\ forall s : App,
         let s' :=
           run_callback
             (CallUpdatePhraseUi {| phrase := p; explanation := c |}) s in
         current_phrase s' = p /\ current_context s' = c
         /\ phrase_text s' = p /\ dialogs s' = dialogs s.
Proof.
  intros Hraise self'. subst self'. unfold _generate_phrase_thread.
  rewrite Hraise.
  destruct (choice_ok (draw_fallback d) fallback_phrases) as [[p c] [Hpc Hin]];
    [discriminate |].
  rewrite Hpc. exists p, c.
  destruct (fallback_phrases_nonempty p c Hin) as [Hp Hc].
  repeat split; auto.
Qed.

(** C5, amended. No thread is given a session identifier: the phrase
    thread and the recording thread are started without arguments. A
    completion is run whatever the live state is: the update carried by a
    phrase completion always becomes the current phrase and context, and
    it leaves the recording flag, the frames and the profile alone. *)
Theorem completions_run_unconditionally self (phrase_data : PhraseData) :
  let self' := run_callback (CallUpdatePhraseUi phrase_data) self in
  current_phrase self' = phrase phrase_data
  /\ current_context self' = explanation phrase_data
  /\ is_recording self' = is_recording self
  /\ audio_frames self' = audio_frames self
  /\ user_data self' = user_data self
  /\ threads (generate_ai_phrase self) =
     threads self
     ++ [{| target := TargetGeneratePhrase; args := []; daemon := true |}]
  /\ threads (start_recording self) =
     threads self ++ [{| target := TargetRecord; args := []; daemon := true |}].
Proof. simpl. repeat split. Qed.

Lemma get_insert_same (m : gmap string pyval) (k : string)
    (v default : pyval) :
  Py.get (<[k := v]> m) k default = v.
Proof. unfold Py.get. rewrite lookup_insert_eq. reflexivity. Qed.

(** What [update_setting] does on the model size, for every object. With
    the speech modules present it drops the handle and loads the new model
    inside the call itself: no thread is started and nothing is handed to
    the main loop; on return the handle is the freshly loaded model, or
    [None] when loading raised, while the status label still reads
    "Loading new model...". The recording flag, the frames and the current
    phrase are untouched. Without the speech modules the handle is left as
    it is. *)
Theorem update_setting_model_size self (value : string) :
  let self' :=
    update_setting whisper_load_model true "whisper_model_size" value self in
  threads self' = threads self
  /\ after_queue self' = after_queue self
  /\ whisper_model self' =
     match whisper_load_model (PyStr value) with
     | Ok m => Some m
     | Raise _ => None
     end
  /\ model_status_label self' = LabelLoadingNew
  /\ is_recording self' = is_recording self
  /\ audio_frames self' = audio_frames self
  /\ current_phrase self' = current_phrase self
  /\ whisper_model
       (update_setting whisper_load_model false "whisper_model_size" value self)
     = whisper_model self.
Proof.
  unfold update_setting. simpl.
  match goal with
  | |- context [save_data ?s] =>
      destruct (save_data_frame s)
        as (Ht & Hq & Hm & Hl & Hr & Hf & Hp & _)
  end.
  rewrite Ht, Hq, Hm, Hl, Hr, Hf, Hp.
  match goal with
  | |- context [save_data ?s] =>
      destruct (save_data_frame s) as (_ & _ & Hm' & _)
  end.
  rewrite Hm'. clear.
  unfold load_whisper_model. simpl. rewrite get_insert_same.
  destruct (whisper_load_model (PyStr value)); simpl; repeat split.
Qed.

(** C10. When both files can be opened for writing, [update_setting],
    for any key and value, writes the data file and then the settings
    file: the data file receives the profile held in memory, which the
    call does not change, and the settings file the updated settings. *)
Theorem update_setting_writes_both_files self (key value : string) :
  data_writable (disk self) = true ->
  settings_writable (disk self) = true ->
  let self' := update_setting whisper_load_model SPEECH_AVAILABLE key value self in
  writes (disk self') = writes (disk self) ++ [data_file; settings_file]
  /\ data_json (disk self') = Json (user_data self)
  /\ settings_json (disk self') = Json (<[key := PyStr value]> (settings self))
  /\ user_data self' = user_data self
  /\ settings self' = <[key := PyStr value]> (settings self).
Proof.
  intros Hdata Hsettings self'. subst self'.
  unfold update_setting, save_data, load_whisper_model.
  destruct (String.eqb key "whisper_model_size" && SPEECH_AVAILABLE); simpl;
    [destruct (whisper_load_model _); simpl |];
    rewrite Hdata; simpl; rewrite Hsettings; simpl;
    rewrite <- app_assoc; repeat split.
Qed.

End Properties.

(** ** Properties of the profile and of persistence *)


(** C9. A missing file never makes [load_data] raise. Provided no file is
    present without being loadable, [load_data] returns, with the
    default profile (no sessions, no scores, 0 total sessions, best score 0)
    when the data file is missing and with the default settings (general,
    beginner, no topic, medium, base) when the settings file is missing. *)
Theorem load_data_missing_files (d : Disk) :
  data_json d <> Unreadable ->
  settings_json d <> Unreadable ->
  exists (u : UserData) (s : gmap string pyval),
    load_data d = Ok (u, s)
    /\ (data_json d = Missing ->
        u = {| sessions := []; scores := []; total_sessions := 0;
               best_score := 0 |})
    /\ (settings_json d = Missing ->
        s !! "focus_area" = Some (PyStr "general")
        /\ s !! "difficulty_level" = Some (PyStr "beginner")
        /\ s !! "topic_interest" = Some (PyStr "")
        /\ s !! "phrase_length" = Some (PyStr "medium")
        /\ s !! "whisper_model_size" = Some (PyStr "base")
        /\ size s = 5%nat)
    /\ (forall u', data_json d = Json u' -> u = u')
    /\ (forall s', settings_json d = Json s' -> s = s').
Proof.
  intros Hdata Hsettings. unfold load_data.
  destruct (data_json d) as [| | u]; [| congruence |];
    destruct (settings_json d) as [| | s]; try congruence;
    simpl; eexists _, _; (split; [reflexivity |]);
    repeat split; try discriminate; try congruence;
    intros _; vm_compute; reflexivity.
Qed.

(** ** Properties of the scorer *)

Lemma lcs_refl (ws : list string) : Scorer.lcs ws ws = length ws.
Proof.
  induction ws as [| w ws IH]; simpl; [reflexivity |].
  rewrite String.eqb_refl, IH. reflexivity.
Qed.

Lemma percentage_all (n : nat) : (0 < n)%nat -> Scorer.percentage n n = 100%Z.
Proof.
  intros Hn. unfold Scorer.percentage, Scorer.clamp.
  assert (Hq : ((200 * Z.of_nat n + Z.of_nat n) / (2 * Z.of_nat n) = 100)%Z).
  { symmetry. apply Z.div_unique with (r := Z.of_nat n); lia. }
  rewrite Hq. reflexivity.
Qed.

(** The scenario of the spec: one target word of six is not heard, which
    scores 83. *)
Example score_seashells :
  Scorer.score "She sells seashells by the seashore."
    "she sells sea shells by the seashore" = 83%Z.
Proof. vm_compute. reflexivity. Qed.

(** C2. For every target phrase with at least one word, and every
    transcript that has the same words up to letter case and punctuation,
    the scorer returns exactly 100. A target phrase of the application
    always has a word: [toggle_recording] refuses an empty current phrase,
    and every phrase that phrase generation can deliver has words. *)
Theorem score_same_words (target_phrase transcript : string) :
  Scorer.same_words target_phrase transcript ->
  Scorer.normalize target_phrase <> [] ->
  Scorer.score target_phrase transcript = 100%Z.
Proof.
  unfold Scorer.same_words, Scorer.score. intros Hsame Hwords.
  rewrite Hsame.
  destruct (Scorer.normalize target_phrase) as [| w ws] eqn:E; [congruence |].
  rewrite lcs_refl. apply percentage_all. simpl. lia.
Qed.

(** Every phrase of the tables and of the fallback pairs has a word. *)
Lemma table_phrases_have_words (p : string) :
  In p (concat (map snd sample_phrases_items)
        ++ concat (map snd topic_phrases)
        ++ map fst fallback_phrases) ->
  has_words p.
Proof.
  unfold sample_phrases_items, topic_phrases, fallback_phrases, has_words.
  simpl. intros H.
  repeat (destruct H as [<- | H]; [vm_compute; discriminate |]).
  contradiction.
Qed.

Lemma focus_table_known (focus : pyval) (table : list string) (p : string) :
  Py.get_key sample_phrases focus general_phrases = Ok table ->
  In p table ->
  In p (concat (map snd sample_phrases_items)).
Proof.
  assert (Hgen : In p general_phrases ->
                 In p (concat (map snd sample_phrases_items))).
  { rewrite general_phrases_eq. unfold sample_phrases_items. simpl. tauto. }
  assert (Hstr : forall s, In p (Py.get sample_phrases s general_phrases) ->
                           In p (concat (map snd sample_phrases_items))).
  { intros s. unfold Py.get.
    destruct (sample_phrases !! s) as [l |] eqn:E; [| exact Hgen].
    unfold sample_phrases in E. apply elem_of_list_to_map_2 in E.
    apply list_elem_of_In in E. intros Hp.
    apply in_concat. exists l. split; [| exact Hp].
    apply in_map_iff. exists (s, l). split; [reflexivity | exact E]. }
  destruct focus; simpl; intros H; try discriminate; injection H as <-;
    first [apply Hstr | exact Hgen].
Qed.

Lemma topic_loop_result (items : list (string * list string))
    (interest : string) (r : nat) (selected_phrase p : string) :
  topic_loop items interest r selected_phrase = Ok p ->
  p = selected_phrase \/ In p (concat (map snd items)).
Proof.
  induction items as [| [topic l] rest IH]; simpl; intros H.
  - left. congruence.
  - destruct (Py.contains _ _).
    + right. apply in_or_app. left.
      unfold Py.choice in H.
      destruct (l !! (r mod length l)%nat) as [x |] eqn:E; [| discriminate].
      injection H as <-. apply list_elem_of_In.
      eapply list_elem_of_lookup_2. exact E.
    + destruct (IH H) as [-> | Hin]; [left; reflexivity |].
      right. apply in_or_app. right. exact Hin.
Qed.

(** Every phrase that phrase generation can make the current phrase has a
    word: those [call_ai_api_for_phrase] returns, and the fallback ones. *)
Lemma generated_phrases_have_words (settings : gmap string pyval) (d : Draws)
    (phrase_data : PhraseData) :
  call_ai_api_for_phrase settings d = Ok phrase_data ->
  has_words (phrase phrase_data).
Proof.
  intros Hcall. apply table_phrases_have_words.
  unfold call_ai_api_for_phrase, Py.item in Hcall.
  destruct (settings !! "focus_area") as [focus |]; [| discriminate].
  cbn [mbind result_bind] in Hcall.
  destruct (Py.get_key sample_phrases focus general_phrases) as [table |]
    eqn:Et; [| discriminate].
  cbn [mbind result_bind] in Hcall.
  destruct (settings !! "phrase_length") as [len |]; [| discriminate].
  cbn [mbind result_bind] in Hcall.
  destruct (Py.choice (draw_phrase d) (candidates len table)) as [p0 |] eqn:Ec;
    [| discriminate].
  cbn [mbind result_bind] in Hcall.
  destruct (Py.strip_method _) as [interest |]; [| discriminate].
  cbn [mbind result_bind] in Hcall.
  assert (Hp0 : In p0 (concat (map snd sample_phrases_items))).
  { assert (Hin : In p0 (candidates len table)).
    { unfold Py.choice in Ec.
      destruct (candidates len table !! _) as [x |] eqn:E; [| discriminate].
      injection Ec as <-. apply list_elem_of_In.
      eapply list_elem_of_lookup_2. exact E. }
    destruct (candidates_cases len table) as [[_ Heq] | [_ Heq]];
      rewrite Heq in Hin.
    - apply length_filter_In in Hin. exact (focus_table_known _ _ _ Et Hin).
    - rewrite general_phrases_eq in Hin. unfold sample_phrases_items.
      simpl in *. tauto. }
  destruct (if Py.truthy interest
            then topic_loop topic_phrases interest (draw_topic d) p0
            else Ok p0) as [p |] eqn:El; [| discriminate].
  cbn [mbind result_bind] in Hcall.
  destruct (Py.get_key focus_areas focus "general practice");
    [| discriminate].
  cbn [mbind result_bind] in Hcall.
  destruct (settings !! "difficulty_level"); [| discriminate].
  cbn [mbind result_bind] in Hcall. injection Hcall as <-. cbn [phrase].
  assert (Hp : p = p0 \/ In p (concat (map snd topic_phrases))).
  { destruct (Py.truthy interest).
    - exact (topic_loop_result _ _ _ _ _ El).
    - left. congruence. }
  destruct Hp as [-> | Hp].
  - apply in_or_app. left. exact Hp0.
  - apply in_or_app. right. apply in_or_app. left. exact Hp.
Qed.

(** ** The properties at concrete objects *)

(** When loading raises, the handle is [None] once [update_setting] has
    returned. *)
Example update_setting_load_fails :
  whisper_model
    (update_setting load_fails true "whisper_model_size" "medium" ready_app)
  = None.
Proof. reflexivity. Qed.

Lemma toggle_recording_without_model_witness :
  whisper_model unloaded_app = None
  /\ is_recording (toggle_recording true unloaded_app) = false
  /\ audio_frames (toggle_recording true unloaded_app) = []
  /\ threads (toggle_recording true unloaded_app) = [].
Proof.
  destruct (toggle_recording_without_model true unloaded_app eq_refl)
    as (_ & Hrec & Hframes & Hthreads & _).
  split; [reflexivity |].
  split; [exact Hrec |]. split; [exact Hframes | exact Hthreads].
Defined.

Lemma toggle_recording_while_recording_witness :
  is_recording recording_app = true
  /\ audio_frames (toggle_recording true recording_app) = ["chunk"]
  /\ toggle_recording true recording_app = stop_recording recording_app
  /\ is_recording unloaded_recording_app = true
  /\ toggle_recording true unloaded_recording_app
     = messagebox
         (showwarning "Model Loading"
            "Whisper model is still loading. Please wait a moment.")
         unloaded_recording_app.
Proof.
  destruct (toggle_recording_while_recording true recording_app eq_refl)
    as (Hframes & _ & _ & _ & Hstop & _).
  destruct (toggle_recording_while_recording true unloaded_recording_app
              eq_refl)
    as (_ & _ & _ & _ & _ & _ & _ & _ & Hwarn & _).
  split; [reflexivity |]. split; [exact Hframes |].
  split; [apply Hstop; [reflexivity | discriminate | discriminate] |].
  split; [reflexivity |].
  apply Hwarn; reflexivity.
Defined.

(** C1 fails on the code: on an object that is recording and holds one
    chunk, [start_recording] empties the frames and starts a second
    recording thread, and the record command changes the recording flag. *)
Lemma start_recording_while_recording_restarts :
  is_recording recording_app = true
  /\ audio_frames (start_recording recording_app) <> audio_frames recording_app
  /\ threads (start_recording recording_app) <> threads recording_app
  /\ is_recording (toggle_recording true recording_app)
     <> is_recording recording_app.
Proof. repeat split; discriminate. Qed.

Lemma generate_phrase_thread_fallback_witness :
  call_ai_api_for_phrase (settings unconfigured_app) draws_0
  = Raise (KeyError "focus_area")
  /\ dialogs (_generate_phrase_thread draws_0 unconfigured_app) = [].
Proof.
  assert (H : call_ai_api_for_phrase (settings unconfigured_app) draws_0
              = Raise (KeyError "focus_area")) by reflexivity.
  split; [exact H |].
  destruct (generate_phrase_thread_fallback unconfigured_app draws_0 _ H)
    as (p & c & _ & _ & _ & _ & _ & Hdialogs & _).
  exact Hdialogs.
Defined.



(** C5 fails on the code: whatever identifiers one gives to live states
    and to completions, if states with different phrases get different
    identifiers then some completion is run on a state whose identifier is
    not its own. The completion carrying the pangram is run both on
    [ready_app] and on [other_app]. *)
Lemma stale_completion_not_discarded :
  ~ exists (Id : Type) (live : @VoiceBuddyAI unit -> Id) (tag : Callback -> Id),
      identifies_sessions live /\ discards_stale live tag.
Proof.
  intros (Id & live & tag & Hids & Hdrop).
  set (cb := CallUpdatePhraseUi
               {| phrase := "The quick brown fox jumps over the lazy dog.";
                  explanation := "Classic pangram for practicing all letters." |}).
  assert (Hrun : forall s : @VoiceBuddyAI unit,
             current_phrase s <> phrase
               {| phrase := "The quick brown fox jumps over the lazy dog.";
                  explanation := "Classic pangram for practicing all letters." |} ->
             run_callback cb s <> s).
  { intros s Hs Heq. apply Hs. rewrite <- Heq at 1. reflexivity. }
  assert (Hready : ~ tag cb <> live ready_app).
  { intros Hstale. apply (Hrun ready_app); [discriminate |].
    apply Hdrop. exact Hstale. }
  assert (Hother : ~ tag cb <> live other_app).
  { intros Hstale. apply (Hrun other_app); [discriminate |].
    apply Hdrop. exact Hstale. }
  apply Hready. intros Eready. apply Hother. intros Eother.
  apply (Hids ready_app other_app); [discriminate | congruence].
Qed.

(** C7. The code does not reload in the background. Changing the model
    size on [ready_app], with the speech modules present and a loader that
    succeeds, starts no thread and hands nothing to the main loop: the new
    model is loaded when [update_setting] returns, and the status label is
    left reading "Loading new model..." over a loaded model. *)
Lemma update_setting_starts_no_thread :
  ~ thread_started ready_app
      (update_setting load_ok true "whisper_model_size" "small" ready_app)
  /\ whisper_model
       (update_setting load_ok true "whisper_model_size" "small" ready_app)
     = Some tt
  /\ after_queue
       (update_setting load_ok true "whisper_model_size" "small" ready_app)
     = []
  /\ model_status_label
       (update_setting load_ok true "whisper_model_size" "small" ready_app)
     = LabelLoadingNew
  /\ model_status_label
       (check_model_status
          (update_setting load_ok true "whisper_model_size" "small" ready_app))
     = LabelReady.
Proof.
  split; [| repeat split].
  unfold thread_started. vm_compute. lia.
Qed.

Lemma update_setting_writes_both_files_witness :
  data_writable (disk ready_app) = true
  /\ settings_writable (disk ready_app) = true
  /\ writes (disk (update_setting load_ok true "topic_interest" "sports"
                     ready_app))
     = [data_file; settings_file].
Proof.
  split; [reflexivity |]. split; [reflexivity |].
  exact (proj1 (update_setting_writes_both_files load_ok true ready_app
                  "topic_interest" "sports" eq_refl eq_refl)).
Defined.


Lemma load_data_missing_files_witness :
  data_json writable_disk <> Unreadable
  /\ settings_json writable_disk <> Unreadable
  /\ exists (u : UserData) (s : gmap string pyval),
       load_data writable_disk = Ok (u, s)
       /\ u = default_user_data
       /\ s !! "whisper_model_size" = Some (PyStr "base").
Proof.
  assert (H1 : data_json writable_disk <> Unreadable) by discriminate.
  assert (H2 : settings_json writable_disk <> Unreadable) by discriminate.
  split; [exact H1 |]. split; [exact H2 |].
  destruct (load_data_missing_files writable_disk H1 H2)
    as (u & s & Hload & Hu & Hs & _).
  exists u, s. split; [exact Hload |]. split; [exact (Hu eq_refl) |].
  destruct (Hs eq_refl) as (_ & _ & _ & _ & Hsize & _). exact Hsize.
Defined.

Lemma score_same_words_witness :
  Scorer.same_words "She sells seashells by the seashore."
    "SHE sells, seashells by the seashore!"
  /\ Scorer.normalize "She sells seashells by the seashore." <> []
  /\ Scorer.score "She sells seashells by the seashore."
       "SHE sells, seashells by the seashore!" = 100%Z.
Proof.
  assert (H1 : Scorer.same_words "She sells seashells by the seashore."
                 "SHE sells, seashells by the seashore!")
    by (vm_compute; reflexivity).
  assert (H2 : Scorer.normalize "She sells seashells by the seashore." <> [])
    by (vm_compute; discriminate).
  split; [exact H1 |]. split; [exact H2 |].
  exact (score_same_words _ _ H1 H2).
Defined.


(** ** Further properties: persistence *)

Section Persistence.

Context {Model : Type}.
Variable whisper_load_model : pyval -> result Model.
Variable SPEECH_AVAILABLE : bool.
Local Abbreviation App := (@VoiceBuddyAI Model).
Implicit Type self : App.

Lemma update_setting_memory self (key value : string) :
  let self' := update_setting whisper_load_model SPEECH_AVAILABLE key value self in
  settings self' = <[key := PyStr value]> (settings self)
  /\ user_data self' = user_data self
  /\ dialogs self' = dialogs self
  /\ threads self' = threads self
  /\ after_queue self' = after_queue self
  /\ is_recording self' = is_recording self
  /\ audio_frames self' = audio_frames self
  /\ current_phrase self' = current_phrase self.
Proof.
  unfold update_setting, save_data, load_whisper_model.
  destruct (String.eqb key "whisper_model_size" && SPEECH_AVAILABLE); simpl;
    [destruct (whisper_load_model _); simpl |];
    destruct (data_writable (disk self)); simpl;
    try destruct (settings_writable (disk self)); simpl; repeat split.
Qed.

Lemma update_setting_disk self (key value : string) :
  disk (update_setting whisper_load_model SPEECH_AVAILABLE key value self)
  = disk (save_data (set_settings (<[key := PyStr value]> (settings self)) self)).
Proof.
  unfold update_setting, save_data, load_whisper_model.
  destruct (String.eqb key "whisper_model_size" && SPEECH_AVAILABLE); simpl;
    [destruct (whisper_load_model _); simpl |];
    destruct (data_writable (disk self)); simpl;
    try destruct (settings_writable (disk self)); simpl; reflexivity.
Qed.

Lemma load_after_save self :
  data_writable (disk self) = true ->
  settings_writable (disk self) = true ->
  load_data (disk (save_data self)) = Ok (user_data self, settings self).
Proof.
  intros Hdata Hsettings. unfold save_data. rewrite Hdata. simpl.
  rewrite Hsettings. reflexivity.
Qed.

(** X1. What [save_data] writes, [load_data] reads back: when both files
    can be opened for writing, loading from the disk left by [save_data]
    returns the profile and the settings held in memory. *)
Theorem save_data_load_data self :
  data_writable (disk self) = true ->
  settings_writable (disk self) = true ->
  load_data (disk (save_data self)) = Ok (user_data self, settings self).
Proof.
  intros Hdata Hsettings. unfold save_data, load_data.
  rewrite Hdata. simpl. rewrite Hsettings. simpl. reflexivity.
Qed.

(** X2. A changed setting survives a restart: after [update_setting key
    value] on writable files, [load_data] returns the unchanged profile and
    settings in which [key] has the new value and every other key the value
    it had. *)
Theorem update_setting_survives_restart self (key value : string) :
  data_writable (disk self) = true ->
  settings_writable (disk self) = true ->
  exists s : gmap string pyval,
    load_data
      (disk (update_setting whisper_load_model SPEECH_AVAILABLE key value self))
    = Ok (user_data self, s)
    /\ s !! key = Some (PyStr value)
    /\ forall k, k <> key -> s !! k = settings self !! k.
Proof.
  intros Hdata Hsettings. exists (<[key := PyStr value]> (settings self)).
  rewrite update_setting_disk. split.
  - exact (load_after_save
             (set_settings (<[key := PyStr value]> (settings self)) self)
             Hdata Hsettings).
  - split; [apply lookup_insert_eq |].
    intros k Hk. apply lookup_insert_ne. congruence.
Qed.

(** X3. When the data file cannot be opened for writing, [update_setting]
    writes nothing at all, not even the settings file that could be written:
    the disk is as before, so the change exists in memory only. The failure
    is printed on the console and no dialog is shown. *)
Theorem update_setting_data_file_locked self (key value : string) :
  data_writable (disk self) = false ->
  let self' := update_setting whisper_load_model SPEECH_AVAILABLE key value self in
  disk self' = disk self
  /\ settings self' !! key = Some (PyStr value)
  /\ dialogs self' = dialogs self
  /\ exists printed,
       console self' =
       printed ++ ["Error saving data: " +:+ exn_str (OSError data_file)].
Proof.
  intros Hdata self'. subst self'.
  destruct (update_setting_memory self key value) as (Hs & _ & Hd & _).
  rewrite Hs, Hd, update_setting_disk. split; [| split; [| split]].
  - unfold save_data. simpl. rewrite Hdata. reflexivity.
  - apply lookup_insert_eq.
  - reflexivity.
  - unfold update_setting, save_data, load_whisper_model.
    destruct (String.eqb key "whisper_model_size" && SPEECH_AVAILABLE); simpl;
      [destruct (whisper_load_model _); simpl |];
      rewrite Hdata; simpl; eexists; reflexivity.
Qed.

(** X4. When only the settings file cannot be opened for writing,
    [save_data] has already rewritten the data file when it fails: the data
    file holds the profile of the object, the settings file keeps its old
    content, and the object itself is unchanged but for the console. *)
Theorem save_data_settings_file_locked self :
  data_writable (disk self) = true ->
  settings_writable (disk self) = false ->
  let self' := save_data self in
  data_json (disk self') = Json (user_data self)
  /\ settings_json (disk self') = settings_json (disk self)
  /\ writes (disk self') = writes (disk self) ++ [data_file]
  /\ dialogs self' = dialogs self
  /\ console self' =
     console self ++ ["Error saving data: " +:+ exn_str (OSError settings_file)].
Proof.
  intros Hdata Hsettings. unfold save_data. rewrite Hdata. simpl.
  rewrite Hsettings. simpl. repeat split.
Qed.

End Persistence.

(** X5. [load_data] raises exactly when one of the two files exists and
    cannot be loaded: a missing file never makes it raise. The exception is
    the one the read raised, unchanged, the data file being read first; it
    is never [FileNotFoundError]. *)
Theorem load_data_raises (d : Disk) :
  ((exists e, load_data d = Raise e)
   <-> data_json d = Unreadable \/ settings_json d = Unreadable)
  /\ (forall e,
        load_data d = Raise e ->
        read_json data_file (data_json d) = Raise e
        \/ (data_json d <> Unreadable
            /\ read_json settings_file (settings_json d) = Raise e))
  /\ (forall e,
        read_json data_file (data_json d) = Raise e ->
        (forall path, e <> FileNotFoundError path) ->
        load_data d = Raise e)
  /\ (forall path, load_data d <> Raise (FileNotFoundError path)).
Proof.
  unfold load_data.
  split; [split |]; [ | | split; [| split]].
  - intros [e H].
    destruct (data_json d) as [| | u]; [| left; reflexivity |];
      (destruct (settings_json d) as [| | s];
       [discriminate H | right; reflexivity | discriminate H]).
  - intros [H | H]; rewrite H.
    + eexists; reflexivity.
    + destruct (data_json d) as [| | u]; eexists; reflexivity.
  - intros e H.
    destruct (data_json d) as [| | u];
      [| left; simpl in H; injection H as <-; reflexivity |];
      (right; split; [discriminate |]);
      (destruct (settings_json d) as [| | s]; simpl in H;
       [discriminate H | injection H as <-; reflexivity | discriminate H]).
  - intros e H Hfound.
    destruct (data_json d) as [| | u]; simpl in H;
      [ injection H as <-; destruct (Hfound _ eq_refl)
      | injection H as <-; reflexivity
      | discriminate H ].
  - intros path.
    destruct (data_json d) as [| | u], (settings_json d) as [| | s];
      discriminate.
Qed.

Lemma save_data_load_data_witness :
  data_writable (disk ready_app) = true
  /\ settings_writable (disk ready_app) = true
  /\ load_data (disk (save_data ready_app))
     = Ok (default_user_data, default_settings).
Proof.
  split; [reflexivity |]. split; [reflexivity |].
  exact (save_data_load_data ready_app eq_refl eq_refl).
Defined.

Lemma update_setting_survives_restart_witness :
  data_writable (disk ready_app) = true
  /\ settings_writable (disk ready_app) = true
  /\ exists s : gmap string pyval,
       load_data
         (disk (update_setting load_ok true "phrase_length" "short" ready_app))
       = Ok (default_user_data, s)
       /\ s !! "phrase_length" = Some (PyStr "short").
Proof.
  split; [reflexivity |]. split; [reflexivity |].
  destruct (update_setting_survives_restart load_ok true ready_app
              "phrase_length" "short" eq_refl eq_refl) as (s & Hload & Hkey & _).
  exists s. split; [exact Hload | exact Hkey].
Defined.

Lemma update_setting_data_file_locked_witness :
  data_writable (disk (set_disk data_locked_disk ready_app)) = false
  /\ disk (update_setting load_ok true "focus_area" "vowels"
             (set_disk data_locked_disk ready_app))
     = data_locked_disk.
Proof.
  split; [reflexivity |].
  exact (proj1 (update_setting_data_file_locked load_ok true
                  (set_disk data_locked_disk ready_app)
                  "focus_area" "vowels" eq_refl)).
Defined.

Lemma save_data_settings_file_locked_witness :
  data_writable (disk (set_disk settings_locked_disk ready_app)) = true
  /\ settings_writable (disk (set_disk settings_locked_disk ready_app)) = false
  /\ data_json (disk (save_data (set_disk settings_locked_disk ready_app)))
     = Json default_user_data.
Proof.
  split; [reflexivity |]. split; [reflexivity |].
  exact (proj1 (save_data_settings_file_locked
                  (set_disk settings_locked_disk ready_app) eq_refl eq_refl)).
Defined.


(** ** Further properties: the phrase provider *)

Lemma filter_none {A : Type} (f : A -> bool) (l : list A) :
  (forall x, In x l -> f x = false) -> List.filter f l = [].
Proof.
  induction l as [| a l IH]; intros H; simpl; [reflexivity |].
  rewrite (H a (or_introl eq_refl)). apply IH.
  intros x Hx. apply H. right. exact Hx.
Qed.

Lemma filter_some {A : Type} (f : A -> bool) (l : list A) (x : A) :
  In x l -> f x = true -> List.filter f l <> [].
Proof.
  intros Hin Hf Hnil.
  assert (Hx : In x (List.filter f l)) by (apply filter_In; auto).
  rewrite Hnil in Hx. exact Hx.
Qed.

(** When the topic interest names no known topic, the phrase returned is
    the one [random.choice] drew from the candidate list. *)
Lemma call_ai_api_for_phrase_plain (settings : gmap string pyval) (d : Draws)
    (focus phrase_length difficulty_level : pyval) (topic_interest : string) :
  settings !! "focus_area" = Some focus ->
  Py.hashable focus = true ->
  settings !! "phrase_length" = Some phrase_length ->
  settings !! "difficulty_level" = Some difficulty_level ->
  Py.get settings "topic_interest" (PyStr "") = PyStr topic_interest ->
  names_topic (Py.strip topic_interest) = false ->
  exists phrase_data table,
    call_ai_api_for_phrase settings d = Ok phrase_data
    /\ Py.get_key sample_phrases focus general_phrases = Ok table
    /\ In (phrase phrase_data) (candidates phrase_length table).
Proof.
  intros Hfocus Hhash Hlen Hlevel Htopic Hno.
  assert (Hstrip : Py.strip_method (Py.get settings "topic_interest" (PyStr ""))
                   = Ok (Py.strip topic_interest))
    by (rewrite Htopic; reflexivity).
  destruct (get_key_hashable sample_phrases focus general_phrases Hhash)
    as [table Htable].
  destruct (call_ai_api_for_phrase_run settings d focus phrase_length
              difficulty_level table (Py.strip topic_interest)
              Hfocus Htable Hlen Hstrip Hlevel)
    as (p0 & p & ex & Hin & Hloop & _ & Hcall).
  assert (Hp : p = p0).
  { destruct (Py.truthy (Py.strip topic_interest)).
    - rewrite (topic_loop_no_match topic_phrases _ _ _ Hno) in Hloop.
      congruence.
    - congruence. }
  subst p. eexists. exists table.
  split; [exact Hcall |]. split; [exact Htable | exact Hin].
Qed.

(** X6. [call_ai_api_for_phrase] raises in exactly three situations: one
    of the keys it indexes, ['focus_area'], ['phrase_length'] or
    ['difficulty_level'], is missing from the settings ([KeyError] of that
    key); the focus area is a value that cannot be hashed, a JSON array or
    object ([TypeError]); the topic interest is present and not a string
    ([AttributeError], from [.strip()]). In every other case it returns;
    in particular [random.choice] never raises [IndexError] there. *)
Theorem call_ai_api_for_phrase_raises (settings : gmap string pyval)
    (d : Draws) :
  ((exists e, call_ai_api_for_phrase settings d = Raise e)
   <-> (exists key,
          In key ["focus_area"; "phrase_length"; "difficulty_level"]
          /\ settings !! key = None)
       \/ (exists focus,
             settings !! "focus_area" = Some focus
             /\ Py.hashable focus = false)
       \/ (forall s, Py.get settings "topic_interest" (PyStr "") <> PyStr s))
  /\ (forall e,
        call_ai_api_for_phrase settings d = Raise e ->
        (exists key,
           e = KeyError key
           /\ settings !! key = None
           /\ In key ["focus_area"; "phrase_length"; "difficulty_level"])
        \/ (exists focus,
              settings !! "focus_area" = Some focus
              /\ Py.hashable focus = false
              /\ e = TypeError
                       ("unhashable type: '" +:+ Py.type_name focus +:+ "'"))
        \/ (exists v,
              Py.get settings "topic_interest" (PyStr "") = v
              /\ (forall s, v <> PyStr s)
              /\ e = AttributeError
                       ("'" +:+ Py.type_name v
                        +:+ "' object has no attribute 'strip'")))
  /\ call_ai_api_for_phrase settings d <> Raise IndexError.
Proof.
  destruct (call_ai_api_for_phrase_cases settings d)
    as [(pd & Hok & _ & (focus & Hfocus & Hhash) & Hlen & Hlevel & (s & Hs))
       | [(key & Hraise & Hnone & Hin)
         | [(focus & Hfocus & Hhash & Hraise)
           | (v & Hv & Hnot & Hraise)]]].
  - split; [split |]; [ | | split].
    + intros [e He]. congruence.
    + intros [(key & Hin & Hnone) | [(focus' & Hfocus' & Hhash') | Hnot]].
      * simpl in Hin.
        destruct Hin as [<- | [<- | [<- | []]]]; congruence.
      * congruence.
      * destruct (Hnot s Hs).
    + intros e He. congruence.
    + congruence.
  - split; [split |]; [ | | split].
    + intros _. left. exists key. auto.
    + intros _. eexists. exact Hraise.
    + intros e He. left. exists key.
      rewrite Hraise in He. injection He as <-. auto.
    + rewrite Hraise. discriminate.
  - split; [split |]; [ | | split].
    + intros _. right; left. exists focus. auto.
    + intros _. eexists. exact Hraise.
    + intros e He. right; left. exists focus.
      rewrite Hraise in He. injection He as <-. auto.
    + rewrite Hraise. discriminate.
  - split; [split |]; [ | | split].
    + intros _. right; right. intros s. rewrite Hv. apply Hnot.
    + intros _. eexists. exact Hraise.
    + intros e He. right; right. exists v.
      rewrite Hraise in He. injection He as <-. auto.
    + rewrite Hraise. discriminate.
Qed.

(** X7. A topic interest that names a known topic overrides the focus
    area and the length filter: when the stripped interest contains
    "animals", "technology" or "sports" (letter case aside), the phrase
    returned is one of the phrases of such a topic, whatever the focus area
    and the phrase length are. These phrases have seven to nine words, so
    the setting "long" (more than 12 words) is never honoured then. *)
Theorem topic_interest_overrides (settings : gmap string pyval) (d : Draws)
    (focus phrase_length difficulty_level : pyval) (topic_interest : string) :
  settings !! "focus_area" = Some focus ->
  Py.hashable focus = true ->
  settings !! "phrase_length" = Some phrase_length ->
  settings !! "difficulty_level" = Some difficulty_level ->
  Py.get settings "topic_interest" (PyStr "") = PyStr topic_interest ->
  existsb
    (fun item =>
       Py.contains (Py.lower (fst item)) (Py.lower (Py.strip topic_interest)))
    topic_phrases = true ->
  exists phrase_data topic l,
    call_ai_api_for_phrase settings d = Ok phrase_data
    /\ In (topic, l) topic_phrases
    /\ Py.contains (Py.lower topic) (Py.lower (Py.strip topic_interest)) = true
    /\ In (phrase phrase_data) l
    /\ (7 <= word_count (phrase phrase_data) <= 9)%nat.
Proof.
  intros Hfocus Hhash Hlen Hlevel Htopic Hex.
  assert (Hstrip : Py.strip_method (Py.get settings "topic_interest" (PyStr ""))
                   = Ok (Py.strip topic_interest))
    by (rewrite Htopic; reflexivity).
  destruct (get_key_hashable sample_phrases focus general_phrases Hhash)
    as [table Htable].
  destruct (call_ai_api_for_phrase_run settings d focus phrase_length
              difficulty_level table (Py.strip topic_interest)
              Hfocus Htable Hlen Hstrip Hlevel)
    as (p0 & p & ex & _ & Hloop & _ & Hcall).
  rewrite (names_topic_truthy _ Hex) in Hloop.
  destruct (topic_loop_match topic_phrases _ (draw_topic d) p0
              topic_phrases_nonempty Hex) as (topic & l & q & Hin & Hc & Hq & Hql).
  rewrite Hq in Hloop. injection Hloop as <-.
  eexists _, topic, l. split; [exact Hcall |].
  repeat split; auto; apply (topic_word_counts topic l q Hin Hql).
Qed.

(** X8. When the topic interest names no known topic (in particular when
    it is missing, empty or blank), the length setting decides where the
    phrase comes from. With "short" it is a phrase of the focus area's
    table with fewer than 8 words when that table has one, and a phrase of
    the general table when it has none; with "long" the same for more than
    12 words; with any other length it is a phrase of the focus area's
    table. The table of an unknown focus area is the general table. *)
Theorem length_setting_or_general (settings : gmap string pyval) (d : Draws)
    (focus phrase_length difficulty_level : pyval) (topic_interest : string) :
  settings !! "focus_area" = Some focus ->
  Py.hashable focus = true ->
  settings !! "phrase_length" = Some phrase_length ->
  settings !! "difficulty_level" = Some difficulty_level ->
  Py.get settings "topic_interest" (PyStr "") = PyStr topic_interest ->
  names_topic (Py.strip topic_interest) = false ->
  exists phrase_data table,
    call_ai_api_for_phrase settings d = Ok phrase_data
    /\ Py.get_key sample_phrases focus general_phrases = Ok table
    /\ (forall s, focus = PyStr s -> table = Py.get sample_phrases s general_phrases)
    /\ ((forall s, focus <> PyStr s) -> table = general_phrases)
    /\ (phrase_length = PyStr "short" ->
        ((exists q, In q table /\ (word_count q < 8)%nat) ->
         In (phrase phrase_data) table
         /\ (word_count (phrase phrase_data) < 8)%nat)
        /\ ((forall q, In q table -> (8 <= word_count q)%nat) ->
            In (phrase phrase_data) general_phrases))
    /\ (phrase_length = PyStr "long" ->
        ((exists q, In q table /\ (12 < word_count q)%nat) ->
         In (phrase phrase_data) table
         /\ (12 < word_count (phrase phrase_data))%nat)
        /\ ((forall q, In q table -> (word_count q <= 12)%nat) ->
            In (phrase phrase_data) general_phrases))
    /\ (phrase_length <> PyStr "short" -> phrase_length <> PyStr "long" ->
        In (phrase phrase_data) table).
Proof.
  intros Hfocus Hhash Hlen Hlevel Htopic Hno.
  destruct (call_ai_api_for_phrase_plain settings d focus phrase_length
              difficulty_level topic_interest Hfocus Hhash Hlen Hlevel Htopic
              Hno)
    as (pd & table & Hcall & Htable & Hin).
  exists pd, table. split; [exact Hcall |]. split; [exact Htable |].
  split; [| split; [| split; [| split]]].
  - intros s ->. simpl in Htable. congruence.
  - intros Hnot. destruct focus; simpl in Htable;
      try (injection Htable as <-; reflexivity); try discriminate.
    destruct (Hnot s eq_refl).
  - intros ->. unfold candidates, length_filter in Hin. simpl in Hin.
    split.
    + intros (q & Hq & Hw).
      pose proof (filter_some (fun p => (word_count p <? 8)%nat) table q Hq
                    (proj2 (Nat.ltb_lt _ _) Hw)) as Hne.
      destruct (List.filter _ table) as [| a l] eqn:E; [congruence |].
      rewrite <- E in Hin. apply filter_In in Hin as [Ht Hc].
      split; [exact Ht | apply Nat.ltb_lt; exact Hc].
    + intros Hall.
      rewrite (filter_none (fun p => (word_count p <? 8)%nat) table) in Hin;
        [exact Hin |].
      intros q Hq. apply Nat.ltb_ge. exact (Hall q Hq).
  - intros ->. unfold candidates, length_filter in Hin. simpl in Hin.
    split.
    + intros (q & Hq & Hw).
      pose proof (filter_some (fun p => (12 <? word_count p)%nat) table q Hq
                    (proj2 (Nat.ltb_lt _ _) Hw)) as Hne.
      destruct (List.filter _ table) as [| a l] eqn:E; [congruence |].
      rewrite <- E in Hin. apply filter_In in Hin as [Ht Hc].
      split; [exact Ht | apply Nat.ltb_lt; exact Hc].
    + intros Hall.
      rewrite (filter_none (fun p => (12 <? word_count p)%nat) table) in Hin;
        [exact Hin |].
      intros q Hq. apply Nat.ltb_ge. exact (Hall q Hq).
  - intros Hs Hl.
    assert (Es : Py.eq_str phrase_length "short" = false).
    { destruct phrase_length; try reflexivity. simpl.
      apply String.eqb_neq. congruence. }
    assert (El : Py.eq_str phrase_length "long" = false).
    { destruct phrase_length; try reflexivity. simpl.
      apply String.eqb_neq. congruence. }
    unfold candidates, length_filter in Hin. rewrite Es, El in Hin.
    destruct table as [| a l] eqn:E; [| exact Hin].
    destruct (focus_table_nonempty focus [] Htable) as [Hne _].
    congruence.
Qed.

Lemma topic_interest_overrides_witness :
  sports_settings !! "focus_area" = Some (PyStr "general")
  /\ Py.hashable (PyStr "general") = true
  /\ sports_settings !! "phrase_length" = Some (PyStr "long")
  /\ sports_settings !! "difficulty_level" = Some (PyStr "beginner")
  /\ Py.get sports_settings "topic_interest" (PyStr "")
     = PyStr " I like SPORTS "
  /\ existsb
       (fun item =>
          Py.contains (Py.lower (fst item))
            (Py.lower (Py.strip " I like SPORTS ")))
       topic_phrases = true
  /\ exists phrase_data,
       call_ai_api_for_phrase sports_settings draws_0 = Ok phrase_data
       /\ (word_count (phrase phrase_data) <= 9)%nat.
Proof.
  assert (H1 : sports_settings !! "focus_area" = Some (PyStr "general"))
    by (vm_compute; reflexivity).
  assert (H2 : Py.hashable (PyStr "general") = true) by reflexivity.
  assert (H3 : sports_settings !! "phrase_length" = Some (PyStr "long"))
    by (vm_compute; reflexivity).
  assert (H4 : sports_settings !! "difficulty_level" = Some (PyStr "beginner"))
    by (vm_compute; reflexivity).
  assert (H5 : Py.get sports_settings "topic_interest" (PyStr "")
               = PyStr " I like SPORTS ")
    by (vm_compute; reflexivity).
  assert (H6 : existsb
                 (fun item =>
                    Py.contains (Py.lower (fst item))
                      (Py.lower (Py.strip " I like SPORTS ")))
                 topic_phrases = true)
    by (vm_compute; reflexivity).
  repeat (split; [assumption |]).
  destruct (topic_interest_overrides sports_settings draws_0 _ _ _ _
              H1 H2 H3 H4 H5 H6)
    as (pd & topic & l & Hcall & _ & _ & _ & _ & Hle).
  exists pd. split; [exact Hcall | exact Hle].
Defined.

Lemma length_setting_or_general_witness :
  long_fluency_settings !! "focus_area" = Some (PyStr "fluency")
  /\ Py.hashable (PyStr "fluency") = true
  /\ long_fluency_settings !! "phrase_length" = Some (PyStr "long")
  /\ long_fluency_settings !! "difficulty_level" = Some (PyStr "beginner")
  /\ Py.get long_fluency_settings "topic_interest" (PyStr "") = PyStr ""
  /\ names_topic (Py.strip "") = false
  /\ exists phrase_data,
       call_ai_api_for_phrase long_fluency_settings draws_0 = Ok phrase_data
       /\ In (phrase phrase_data)
            (Py.get sample_phrases "fluency" general_phrases)
       /\ (12 < word_count (phrase phrase_data))%nat.
Proof.
  assert (H1 : long_fluency_settings !! "focus_area" = Some (PyStr "fluency"))
    by (vm_compute; reflexivity).
  assert (H2 : Py.hashable (PyStr "fluency") = true) by reflexivity.
  assert (H3 : long_fluency_settings !! "phrase_length" = Some (PyStr "long"))
    by (vm_compute; reflexivity).
  assert (H4 : long_fluency_settings !! "difficulty_level"
               = Some (PyStr "beginner"))
    by (vm_compute; reflexivity).
  assert (H5 : Py.get long_fluency_settings "topic_interest" (PyStr "")
               = PyStr "")
    by (vm_compute; reflexivity).
  assert (H6 : names_topic (Py.strip "") = false)
    by (vm_compute; reflexivity).
  repeat (split; [assumption |]).
  destruct (length_setting_or_general long_fluency_settings draws_0 _ _ _ _
              H1 H2 H3 H4 H5 H6)
    as (pd & table & Hcall & _ & Htable & _ & _ & Hlong & _).
  exists pd. split; [exact Hcall |].
  rewrite <- (Htable "fluency" eq_refl).
  apply (proj1 (Hlong eq_refl)).
  rewrite (Htable "fluency" eq_refl).
  eexists. split; [left; reflexivity |]. vm_compute. lia.
Defined.

(** ** Further properties: the session *)

Section Session.

Context {Model : Type}.
Variable whisper_load_model : pyval -> result Model.
Local Abbreviation App := (@VoiceBuddyAI Model).
Implicit Type self : App.

(** The phrase thread always hands one phrase update to the main loop,
    after printing at most one line. *)
Lemma generate_phrase_thread_delivers self (d : Draws) :
  exists phrase_data,
    phrase phrase_data <> ""
    /\ (_generate_phrase_thread d self
        = root_after (CallUpdatePhraseUi phrase_data) self
        \/ exists line,
             _generate_phrase_thread d self
             = root_after (CallUpdatePhraseUi phrase_data) (print line self)).
Proof.
  unfold _generate_phrase_thread.
  destruct (call_ai_api_for_phrase (settings self) d) as [pd | e] eqn:Hcall.
  - exists pd. split; [| left; reflexivity].
    destruct (call_ai_api_for_phrase_cases (settings self) d)
      as [(pd' & Hok & Hne & _)
         | [(key & Hraise & _)
           | [(focus & _ & _ & Hraise) | (v & _ & _ & Hraise)]]];
      congruence.
  - destruct (choice_ok (draw_fallback d) fallback_phrases)
      as [[p c] [Hpc Hin]]; [discriminate |].
    rewrite Hpc. eexists. split; [| right; eexists; reflexivity].
    simpl. unfold fallback_phrases in Hin. simpl in Hin.
    repeat (destruct Hin as [Hin | Hin];
            [injection Hin as <- _; discriminate |]).
    contradiction.
Qed.

(** X9. Phrase generation always completes, whatever the settings hold:
    after [generate_ai_phrase] the thread hands exactly one phrase update to
    the main loop and shows no dialog; running that update installs a
    non-empty current phrase, shows it, and enables the button again. The
    recording flag and the frames are those from before. *)
Theorem phrase_generation_completes self (d : Draws) :
  generate_btn (generate_ai_phrase self) = GenerateDisabled
  /\ exists phrase_data,
       let s1 := _generate_phrase_thread d (generate_ai_phrase self) in
       let s2 := run_callback (CallUpdatePhraseUi phrase_data) s1 in
       after_queue s1 = after_queue self ++ [CallUpdatePhraseUi phrase_data]
       /\ dialogs s1 = dialogs self
       /\ current_phrase s1 = current_phrase self
       /\ current_phrase s2 = phrase phrase_data
       /\ current_phrase s2 <> ""
       /\ phrase_text s2 = current_phrase s2
       /\ generate_btn s2 = GenerateNormal
       /\ is_recording s2 = is_recording self
       /\ audio_frames s2 = audio_frames self.
Proof.
  split; [reflexivity |].
  destruct (generate_phrase_thread_delivers (generate_ai_phrase self) d)
    as (pd & Hne & [Heq | [line Heq]]);
    exists pd; rewrite Heq; simpl; repeat split; exact Hne.
Qed.

Lemma record_loop_recording (reads : list bytes) self :
  is_recording self = true ->
  record_loop reads self = set_audio_frames (audio_frames self ++ reads) self.
Proof.
  revert self. induction reads as [| data reads IH]; intros self Hrec; simpl.
  - rewrite app_nil_r. destruct self; reflexivity.
  - rewrite Hrec. rewrite IH; [| exact Hrec].
    unfold record_append. simpl. rewrite <- app_assoc. reflexivity.
Qed.

(** X11. Starting a recording again discards what the previous recording
    captured: whatever frames the object holds, after [start_recording] the
    loop collects only the chunks read from then on. *)
Theorem start_recording_discards_frames self (reads : list bytes) :
  audio_frames (record_loop reads (start_recording self)) = reads
  /\ audio_frames (stop_recording (record_loop reads (start_recording self)))
     = reads.
Proof.
  rewrite record_loop_recording by reflexivity. split; reflexivity.
Qed.

(** X12. Without a current phrase the record button is refused: with the
    speech modules and a model at hand, [toggle_recording] on an empty
    [current_phrase] shows the warning "No Phrase" and changes nothing else,
    so no recording starts and a running one is not stopped. *)
Theorem toggle_recording_without_phrase self :
  whisper_model self <> None ->
  current_phrase self = "" ->
  let self' := toggle_recording true self in
  self' =
  messagebox (showwarning "No Phrase" "Please generate a phrase first!") self
  /\ is_recording self' = is_recording self
  /\ audio_frames self' = audio_frames self
  /\ threads self' = threads self.
Proof.
  intros Hmodel Hphrase. unfold toggle_recording. simpl.
  destruct (whisper_model self); [| congruence].
  rewrite Hphrase. simpl. repeat split.
Qed.

(** X13. A model that fails to load while a recording runs leaves the
    recording without a way to stop it: after [update_setting] on the model
    size with a loader that raises, the handle is [None], and the next press
    of the record button is turned down with "Model Loading" while
    [is_recording] stays true. *)
Theorem failed_reload_blocks_stop self (value : string) (e : exn) :
  is_recording self = true ->
  whisper_load_model (PyStr value) = Raise e ->
  let s1 := update_setting whisper_load_model true "whisper_model_size" value self in
  let s2 := toggle_recording true s1 in
  whisper_model s1 = None
  /\ is_recording s2 = true
  /\ audio_frames s2 = audio_frames self
  /\ dialogs s2 =
     dialogs self
     ++ [showwarning "Model Loading"
           "Whisper model is still loading. Please wait a moment."].
Proof.
  intros Hrec Hload s1 s2.
  assert (Hnone : whisper_model s1 = None).
  { subst s1. unfold update_setting. simpl.
    match goal with
    | |- context [save_data ?s] =>
        destruct (save_data_frame s) as (_ & _ & Hm & _)
    end.
    rewrite Hm. unfold load_whisper_model. simpl.
    rewrite get_insert_same, Hload. reflexivity. }
  destruct (update_setting_memory whisper_load_model true self
              "whisper_model_size" value)
    as (_ & _ & Hd & _ & _ & Hr & Hf & _).
  fold s1 in Hd, Hr, Hf.
  subst s2. unfold toggle_recording. simpl. rewrite Hnone. simpl.
  rewrite Hr, Hf, Hd. auto.
Qed.

(** X14. A setting other than the model size changes that one key and
    nothing of the session: the other keys keep their values, the model
    handle and its status label are untouched, the current phrase is not
    regenerated, no dialog is shown and no thread is started. *)
Theorem update_setting_other_key (SPEECH_AVAILABLE : bool) self
    (key value : string) :
  key <> "whisper_model_size" ->
  let self' := update_setting whisper_load_model SPEECH_AVAILABLE key value self in
  settings self' !! key = Some (PyStr value)
  /\ (forall k, k <> key -> settings self' !! k = settings self !! k)
  /\ whisper_model self' = whisper_model self
  /\ model_status_label self' = model_status_label self
  /\ current_phrase self' = current_phrase self
  /\ is_recording self' = is_recording self
  /\ user_data self' = user_data self
  /\ dialogs self' = dialogs self
  /\ threads self' = threads self.
Proof.
  intros Hkey self'.
  destruct (update_setting_memory whisper_load_model SPEECH_AVAILABLE self
              key value) as (Hs & Hu & Hd & Ht & _ & Hr & _ & Hp).
  fold self' in Hs, Hu, Hd, Ht, Hr, Hp.
  rewrite Hs, Hu, Hd, Ht, Hr, Hp.
  split; [apply lookup_insert_eq |].
  split; [intros k Hk; apply lookup_insert_ne; congruence |].
  assert (Hneq : String.eqb key "whisper_model_size" = false)
    by (apply String.eqb_neq; exact Hkey).
  subst self'. unfold update_setting, save_data. rewrite Hneq. simpl.
  destruct (data_writable (disk self)); simpl;
    [destruct (settings_writable (disk self)) |]; simpl; repeat split.
Qed.

End Session.

(** ** Further properties: startup *)


Section Startup.

Context {Model : Type}.
Variable whisper_load_model : pyval -> result Model.
Local Abbreviation App := (@VoiceBuddyAI Model).




End Startup.

(** ** The further properties at concrete objects *)

Lemma toggle_recording_without_phrase_witness :
  whisper_model phraseless_app <> None
  /\ current_phrase phraseless_app = ""
  /\ toggle_recording true phraseless_app
     = messagebox
         (showwarning "No Phrase" "Please generate a phrase first!")
         phraseless_app.
Proof.
  assert (H1 : whisper_model phraseless_app <> None) by discriminate.
  split; [exact H1 |]. split; [reflexivity |].
  exact (proj1 (toggle_recording_without_phrase phraseless_app H1 eq_refl)).
Defined.

Lemma failed_reload_blocks_stop_witness :
  is_recording recording_app = true
  /\ load_fails (PyStr "large") = Raise (RuntimeError "model download failed")
  /\ is_recording
       (toggle_recording true
          (update_setting load_fails true "whisper_model_size" "large"
             recording_app))
     = true.
Proof.
  split; [reflexivity |]. split; [reflexivity |].
  destruct (failed_reload_blocks_stop load_fails recording_app "large" _
              eq_refl eq_refl) as (_ & Hrec & _).
  exact Hrec.
Defined.

Lemma update_setting_other_key_witness :
  "focus_area" <> "whisper_model_size"
  /\ settings (update_setting load_ok true "focus_area" "vowels" ready_app)
     !! "focus_area" = Some (PyStr "vowels")
  /\ current_phrase (update_setting load_ok true "focus_area" "vowels" ready_app)
     = current_phrase ready_app.
Proof.
  assert (H : "focus_area" <> "whisper_model_size") by discriminate.
  split; [exact H |].
  destruct (update_setting_other_key load_ok true ready_app "focus_area"
              "vowels" H) as (Hkey & _ & _ & _ & Hphrase & _).
  split; [exact Hkey | exact Hphrase].
Defined.


